(** * amazon-ssm-agent: association document compiler and inventory orchestrator

    A shallow embedding of
      - agent/association/parser/parser.go  (module [Parser])
      - agent/inventory/inventory.go        (module [Inventory])
    followed by the properties established about them.

    Conventions of the embedding.
      - A Go [map[string]T] is a [gmap string T]; a nil map and an empty map
        are both [∅] (the code only ever tests [len] and ranges over them).
      - A Go slice is a [list]; a nil slice is [[]].
      - A pointer that the code dereferences without a nil test is modelled
        by its target; a pointer that the code tests against nil is an
        [option].
      - A Go call either returns, returns a non-nil [error], or panics:
        type [outcome].
      - Go leaves the iteration order of [range] over a map unspecified.
        Where the order cannot influence the result the loop is a
        [map_fold]; where it can (the gatherer loop) the order is an
        explicit argument. *)

From Stdlib Require Import ZArith String Ascii List Bool Lia SpecFloat.
From stdpp Require Import base option list gmap strings fin_maps.

Local Open Scope string_scope.
Local Open Scope list_scope.

(* ===================================================================== *)
(** * Go runtime: call outcomes, [path.Join], [float32]                  *)
(* ===================================================================== *)

Module Go.

(** What a call into Go code can do. [Failed] carries the text of the
    returned [error]; [Panicked] the run-time panic message. *)
Inductive outcome (A : Type) : Type :=
| Returned (a : A)
| Failed (err : string)
| Panicked (why : string).
Arguments Returned {A} a.
Arguments Failed {A} err.
Arguments Panicked {A} why.

Definition bind {A B : Type} (c : outcome A) (k : A -> outcome B) : outcome B :=
  match c with
  | Returned a => k a
  | Failed e => Failed e
  | Panicked w => Panicked w
  end.

Definition returns {A : Type} (c : outcome A) : bool :=
  match c with Returned _ => true | _ => false end.

(** [strings.Split(s, sep)] for a one-byte separator. *)
Fixpoint split_on (sep : ascii) (s : string) : list string :=
  match s with
  | EmptyString => [EmptyString]
  | String c rest =>
      if Ascii.eqb c sep then EmptyString :: split_on sep rest
      else match split_on sep rest with
           | [] => [String c EmptyString]
           | w :: ws => String c w :: ws
           end
  end.

(** One path element pushed on the stack of kept elements (top first), as
    [path.Clean] treats it: empty and [.] elements vanish, [..] removes the
    element before it, is dropped at the root, and is kept in front of a
    relative path. *)
Definition clean_step (rooted : bool) (stack : list string) (c : string) : list string :=
  if decide (c = "") then stack
  else if decide (c = ".") then stack
  else if decide (c = "..") then
    match stack with
    | top :: below => if decide (top = "..") then c :: stack else below
    | [] => if rooted then [] else [c]
    end
  else c :: stack.

(** [path.Clean]. *)
Definition Clean (p : string) : string :=
  let rooted := match p with String "/" _ => true | _ => false end in
  let kept := rev (fold_left (clean_step rooted) (split_on "/" p) []) in
  let body := String.concat "/" kept in
  if rooted then "/" +:+ body
  else if decide (body = "") then "." else body.

(** [path.Join]: empty elements are ignored, the rest is joined with
    slashes and cleaned; no non-empty element gives the empty string. *)
Definition Join (elem : list string) : string :=
  match filter (fun e => e <> "") elem with
  | [] => ""
  | kept => Clean (String.concat "/" kept)
  end.

(** [filepath.Join] on a platform whose separator is the slash. *)
Definition filepath_Join (elem : list string) : string := Join elem.

(** [float32]: IEEE-754 binary32, i.e. 24 bits of precision and exponents
    below 128, with round-to-nearest-even. *)
Definition float32 : Type := spec_float.
Definition prec32 : Z := 24.
Definition emax32 : Z := 128.

(** The conversion [float32(n)] of an integer. *)
Definition float32_of_Z (n : Z) : float32 := binary_normalize prec32 emax32 n 0 false.

(** [x / y] and [x > y] on [float32]. *)
Definition fdiv (x y : float32) : float32 := SFdiv prec32 emax32 x y.
Definition fgt (x y : float32) : bool := SFltb y x.

(** [fmt.Sprintf("%s", xs)] of a slice, given the rendering of an element:
    the elements separated by one space, in square brackets. *)
Definition Sprintf_slice {A : Type} (render : A -> string) (xs : list A) : string :=
  "[" +:+ String.concat " " (map render xs) +:+ "]".

End Go.

#[global] Instance outcome_ret : MRet Go.outcome := @Go.Returned.
#[global] Instance outcome_bind : MBind Go.outcome := fun A B k c => Go.bind c k.

(** Exposes the case analysis behind [x ← c; k] on outcomes. *)
Ltac unfold_outcome :=
  unfold mbind, mret, outcome_bind, outcome_ret, Go.bind in *.

(* ===================================================================== *)
(** * agent/association/parser/parser.go                                 *)
(* ===================================================================== *)

Module Parser.

(** [time.Time] values; the code only hands them to the formatters of
    package [times]. *)
Definition Time : Type := Z.

(** A value of type [interface{}]: what [parseParameters] stores (one
    [*string], or a whole [[]*string]) and what [json.Unmarshal] decodes
    (kept as its JSON text). *)
Inductive Any : Type :=
| AnyNil
| AnyStringPtr (p : option string)
| AnyStringPtrs (ps : list (option string))
| AnyJSON (raw : string).

(** ** The types of the packages [contracts], [model], [messageContracts]
    and [stateModel] that the parser reads and writes. Their declarations
    are outside the two source files; each record lists the fields that
    parser.go uses, under the field's Go name behind the record's tag. *)

(** [contracts.Parameter] ([Parameter] is a reserved word here). *)
Record DocParameter : Type := {
  param_ParamType : string;
  param_DefaultVal : Any
}.

(** Modelled from the spec: the constants [contracts.ParamTypeString] and
    [contracts.ParamTypeStringList], "declared type (scalar string | string
    list)"; two distinct cases of one [switch]. *)
Definition ParamTypeString : string := "String".
Definition ParamTypeStringList : string := "StringList".

(** [contracts.PluginConfig], a value of [RuntimeConfig]. *)
Record PluginConfig : Type := {
  pc_Settings : Any;
  pc_Properties : Any
}.

(** [contracts.InstancePluginConfig], an element of [MainSteps]. *)
Record InstancePluginConfig : Type := {
  step_Action : string;
  step_Name : string;
  step_Inputs : Any;
  step_Settings : Any
}.

(** [contracts.DocumentContent]. *)
Record DocumentContent : Type := {
  doc_SchemaVersion : string;
  doc_RuntimeConfig : gmap string PluginConfig;
  doc_MainSteps : list InstancePluginConfig;
  doc_Parameters : gmap string DocParameter
}.

(** [messageContracts.SendCommandPayload]. *)
Record SendCommandPayload : Type := {
  payload_Parameters : gmap string Any;
  payload_DocumentContent : DocumentContent;
  payload_CommandID : string;
  payload_DocumentName : string;
  payload_OutputS3KeyPrefix : string;
  payload_OutputS3BucketName : string
}.

(** [ssm.S3OutputLocation] and [ssm.InstanceAssociationOutputLocation]:
    every level is a pointer the parser tests against nil. *)
Record S3OutputLocation : Type := {
  s3_OutputS3KeyPrefix : option string;
  s3_OutputS3BucketName : option string
}.

Record OutputLocation : Type := {
  out_S3Location : option S3OutputLocation
}.

(** [rawData.Association]. *)
Record Association : Type := {
  assoc_Name : string;
  assoc_AssociationId : string;
  assoc_InstanceId : string;
  assoc_OutputLocation : option OutputLocation;
  assoc_Parameters : gmap string (list (option string))
}.

(** [model.InstanceAssociation], the raw association message. *)
Record InstanceAssociation : Type := {
  raw_DocumentID : string;
  raw_Document : string;
  raw_Association : Association;
  raw_CreateDate : Time;
  raw_RunOnce : bool
}.

(** [contracts.ResultStatusInProgress]. *)
Definition ResultStatusInProgress : string := "InProgress".

(** [stateModel.DocumentInfo]: the fields [newDocumentInfo] assigns. *)
Record DocumentInfo : Type := {
  info_AssociationID : string;
  info_InstanceID : string;
  info_MessageID : string;
  info_RunID : string;
  info_DocumentID : string;
  info_CreatedDate : string;
  info_DocumentName : string;
  info_IsCommand : bool;
  info_DocumentStatus : string;
  info_RunOnce : bool;
  info_DocumentTraceOutput : string
}.

(** [contracts.Configuration]. *)
Record Configuration : Type := {
  cfg_Settings : Any;
  cfg_Properties : Any;
  cfg_OutputS3BucketName : string;
  cfg_OutputS3KeyPrefix : string;
  cfg_OrchestrationDirectory : string;
  cfg_MessageId : string;
  cfg_BookKeepingFileName : string
}.

(** [stateModel.PluginState]. *)
Record PluginState : Type := {
  ps_Configuration : Configuration;
  ps_Name : string;
  ps_HasExecuted : bool;
  ps_Id : string
}.

(** The zero [PluginState], what [make([]PluginState, n)] is filled with. *)
Definition zeroPluginState : PluginState :=
  {| ps_Configuration :=
       {| cfg_Settings := AnyNil; cfg_Properties := AnyNil;
          cfg_OutputS3BucketName := ""; cfg_OutputS3KeyPrefix := "";
          cfg_OrchestrationDirectory := ""; cfg_MessageId := "";
          cfg_BookKeepingFileName := "" |};
     ps_Name := ""; ps_HasExecuted := false; ps_Id := "" |}.

(** [stateModel.DocumentType]; the parser only writes [Association]. *)
Variant DocumentType : Type := SendCommand | CancelCommand | AssociationDocument.

(** [stateModel.DocumentState]. The two plugin collections are two fields
    of the Go struct; the zero value of each is the empty collection. *)
Record DocumentState : Type := {
  state_DocumentInformation : DocumentInfo;
  state_DocumentType : DocumentType;
  state_SchemaVersion : string;
  state_PluginsInformation : gmap string PluginState;
  state_InstancePluginsInformation : list PluginState
}.

(** ** What parser.go calls outside the two source files: the clock and
    the formatters of package [times], the JSON codec, the parameter
    validation and substitution of packages [parameters] and
    [messageParser], and the path constants of [appconfig]. *)
Record Env : Type := {
  clock_Now : Time;
  ToIsoDashUTC : Time -> string;
  ToIso8601UTC : Time -> string;
  Marshal_association : InstanceAssociation -> Go.outcome string;
  Marshal_parameters : gmap string Any -> Go.outcome string;
  Unmarshal_document : string -> Go.outcome DocumentContent;
  ValidParameters : gmap string Any -> gmap string Any;
  ReplacePluginParameters :
    SendCommandPayload -> gmap string Any -> Go.outcome SendCommandPayload;
  DefaultDataStorePath : string;
  DefaultDocumentRootDirName : string;
  OrchestrationRootDir : string
}.

(** Modelled from the spec: [fileutil.BuildS3Path] and [fileutil.BuildPath]
    are outside the two source files; "the per-plugin output key prefix and
    orchestration directory are the document-level values joined with the
    plugin's name (legacy) or its action name (step form) as the final path
    segment". *)
Definition BuildS3Path (root element : string) : string := Go.Join [root; element].
Definition BuildPath (root element : string) : string := Go.filepath_Join [root; element].

(** ** parseParameters

    One iteration of [for name, param := range params]: a declared
    [String] parameter takes [param[0]] (a run-time panic on an empty
    slice), a declared [StringList] parameter takes the slice, any other
    declared type is only logged, an undeclared name is skipped. *)
Definition parseParameters_step (paramsDef : gmap string DocParameter)
    (name : string) (param : list (option string)) (result : gmap string Any)
  : Go.outcome (gmap string Any) :=
  match paramsDef !! name with
  | Some definition =>
      if decide (param_ParamType definition = ParamTypeString) then
        match param with
        | [] => Go.Panicked "index out of range"
        | first :: _ => Go.Returned (<[name := AnyStringPtr first]> result)
        end
      else if decide (param_ParamType definition = ParamTypeStringList) then
        Go.Returned (<[name := AnyStringPtrs param]> result)
      else Go.Returned result
  | None => Go.Returned result
  end.

Definition parseParameters (params : gmap string (list (option string)))
    (paramsDef : gmap string DocParameter) : Go.outcome (gmap string Any) :=
  map_fold (fun name param acc => result ← acc; parseParameters_step paramsDef name param result)
           (Go.Returned ∅) params.

(** The same loop with the order of [range] made explicit: [entries] are
    the key-value pairs of [params] in the order yielded. *)
Definition parseParameters_in_order (paramsDef : gmap string DocParameter)
    (entries : list (string * list (option string))) : Go.outcome (gmap string Any) :=
  fold_left (fun acc entry => result ← acc; parseParameters_step paramsDef entry.1 entry.2 result)
            entries (Go.Returned ∅).

(** What the loop amounts to, for the statements below: the entry stored
    for one supplied parameter, if any, *)
Definition parsedEntry (paramsDef : gmap string DocParameter) (name : string)
    (param : list (option string)) : option Any :=
  match paramsDef !! name with
  | Some definition =>
      if decide (param_ParamType definition = ParamTypeString) then
        AnyStringPtr <$> head param
      else if decide (param_ParamType definition = ParamTypeStringList) then
        Some (AnyStringPtrs param)
      else None
  | None => None
  end.

(** and the supplied parameter on which [param[0]] is out of range:
    declared with type [String], supplied with no value. *)
Definition indexOutOfRange (paramsDef : gmap string DocParameter) (name : string)
    (param : list (option string)) : Prop :=
  param = [] /\ exists definition, paramsDef !! name = Some definition
                                   /\ param_ParamType definition = ParamTypeString.

(** ** ParseDocumentWithParams *)

(** Lines 74-80: [for k, v := range payload.DocumentContent.Parameters]
    adds the default of each declared parameter that has no entry yet. *)
Definition addDefaultValues (declared : gmap string DocParameter)
    (validParams : gmap string Any) : gmap string Any :=
  map_fold (fun k v acc => match acc !! k with
                           | Some _ => acc
                           | None => <[k := param_DefaultVal v]> acc
                           end)
           validParams declared.

(** The binding table handed to [ReplacePluginParameters]: the supplied
    values of [parseParameters], filtered by [parameters.ValidParameters],
    completed with the declared defaults. *)
Definition resolveParameters (env : Env) (supplied : gmap string (list (option string)))
    (declared : gmap string DocParameter) : Go.outcome (gmap string Any) :=
  params ← parseParameters supplied declared;
  mret (addDefaultValues declared (ValidParameters env params)).

(** The output location copied into the payload: each field only when its
    pointer, and every pointer on the way to it, is non-nil. *)
Definition outputS3KeyPrefix_of (a : Association) : string :=
  match assoc_OutputLocation a with
  | Some {| out_S3Location := Some s3 |} => default "" (s3_OutputS3KeyPrefix s3)
  | _ => ""
  end.

Definition outputS3BucketName_of (a : Association) : string :=
  match assoc_OutputLocation a with
  | Some {| out_S3Location := Some s3 |} => default "" (s3_OutputS3BucketName s3)
  | _ => ""
  end.

Definition ParseDocumentWithParams (env : Env) (rawData : InstanceAssociation)
  : Go.outcome SendCommandPayload :=
  _ ← Marshal_association env rawData;
  content ← Unmarshal_document env (raw_Document rawData);
  params ← parseParameters (assoc_Parameters (raw_Association rawData)) (doc_Parameters content);
  let payload :=
    {| payload_Parameters := params;
       payload_DocumentContent := content;
       payload_CommandID := assoc_AssociationId (raw_Association rawData);
       payload_DocumentName := assoc_Name (raw_Association rawData);
       payload_OutputS3KeyPrefix := outputS3KeyPrefix_of (raw_Association rawData);
       payload_OutputS3BucketName := outputS3BucketName_of (raw_Association rawData) |} in
  _ ← Marshal_parameters env params;
  let validParams := addDefaultValues (doc_Parameters content) (ValidParameters env params) in
  ReplacePluginParameters env payload validParams.

(** ** newDocumentInfo

    [rawData] is a pointer and line 126 writes through it
    ([rawData.DocumentID = documentInfo.DocumentID]); the function returns
    the message as it stands afterwards next to its result. *)
Definition newDocumentInfo (env : Env) (rawData : InstanceAssociation)
    (payload : SendCommandPayload) : DocumentInfo * InstanceAssociation :=
  let AssociationID := assoc_AssociationId (raw_Association rawData) in
  let InstanceID := assoc_InstanceId (raw_Association rawData) in
  let RunID := ToIsoDashUTC env (clock_Now env) in
  let DocumentID := assoc_AssociationId (raw_Association rawData) +:+ "." +:+ RunID in
  ({| info_AssociationID := AssociationID;
      info_InstanceID := InstanceID;
      info_MessageID := "aws.ssm." +:+ AssociationID +:+ "." +:+ InstanceID;
      info_RunID := RunID;
      info_DocumentID := DocumentID;
      info_CreatedDate := ToIso8601UTC env (raw_CreateDate rawData);
      info_DocumentName := payload_DocumentName payload;
      info_IsCommand := false;
      info_DocumentStatus := ResultStatusInProgress;
      info_RunOnce := raw_RunOnce rawData;
      info_DocumentTraceOutput := "" |},
   {| raw_DocumentID := DocumentID;
      raw_Document := raw_Document rawData;
      raw_Association := raw_Association rawData;
      raw_CreateDate := raw_CreateDate rawData;
      raw_RunOnce := raw_RunOnce rawData |}).

(** ** buildPluginsInfo *)

(** First loop of the [RuntimeConfig] branch: one [contracts.Configuration]
    per plugin name. *)
Definition pluginConfigurations (payload : SendCommandPayload) (documentInfo : DocumentInfo)
    (s3KeyPrefix orchestrationDir : string) : gmap string Configuration :=
  map_fold (fun pluginName pluginConfig acc =>
              <[pluginName :=
                  {| cfg_Settings := pc_Settings pluginConfig;
                     cfg_Properties := pc_Properties pluginConfig;
                     cfg_OutputS3BucketName := payload_OutputS3BucketName payload;
                     cfg_OutputS3KeyPrefix := BuildS3Path s3KeyPrefix pluginName;
                     cfg_OrchestrationDirectory := BuildPath orchestrationDir pluginName;
                     cfg_MessageId := info_MessageID documentInfo;
                     cfg_BookKeepingFileName := info_DocumentID documentInfo |}]> acc)
           ∅ (doc_RuntimeConfig (payload_DocumentContent payload)).

(** Second loop of the [RuntimeConfig] branch: the plugin state of each
    configuration, the map key being both its id and its name. *)
Definition pluginsInfo (configurations : gmap string Configuration) : gmap string PluginState :=
  map_fold (fun key value acc =>
              <[key := {| ps_Configuration := value; ps_Name := key;
                          ps_HasExecuted := false; ps_Id := key |}]> acc)
           ∅ configurations.

(** The plugin state built for one element of [MainSteps]. *)
Definition instancePluginState (payload : SendCommandPayload) (documentInfo : DocumentInfo)
    (s3KeyPrefix orchestrationDir : string) (instancePluginConfig : InstancePluginConfig)
  : PluginState :=
  let pluginName := step_Action instancePluginConfig in
  {| ps_Configuration :=
       {| cfg_Settings := step_Settings instancePluginConfig;
          cfg_Properties := step_Inputs instancePluginConfig;
          cfg_OutputS3BucketName := payload_OutputS3BucketName payload;
          cfg_OutputS3KeyPrefix := BuildS3Path s3KeyPrefix pluginName;
          cfg_OrchestrationDirectory := BuildPath orchestrationDir pluginName;
          cfg_MessageId := info_MessageID documentInfo;
          cfg_BookKeepingFileName := info_DocumentID documentInfo |};
     ps_Name := pluginName;
     ps_HasExecuted := false;
     ps_Id := step_Name instancePluginConfig |}.

(** The loop of the [MainSteps] branch,
    [for index, instancePluginConfig := range MainSteps], from [index] on:
    [instancePluginsInfo[index] = plugin]. *)
Fixpoint fillInstancePlugins (mk : InstancePluginConfig -> PluginState) (index : nat)
    (steps : list InstancePluginConfig) (instancePluginsInfo : list PluginState)
  : list PluginState :=
  match steps with
  | [] => instancePluginsInfo
  | instancePluginConfig :: rest =>
      fillInstancePlugins mk (S index) rest
        (<[index := mk instancePluginConfig]> instancePluginsInfo)
  end.

Definition buildPluginsInfo (payload : SendCommandPayload) (documentInfo : DocumentInfo)
    (s3KeyPrefix orchestrationDir : string) (docState : DocumentState) : DocumentState :=
  let content := payload_DocumentContent payload in
  if decide (size (doc_RuntimeConfig content) <> 0%nat) then
    {| state_DocumentInformation := state_DocumentInformation docState;
       state_DocumentType := state_DocumentType docState;
       state_SchemaVersion := state_SchemaVersion docState;
       state_PluginsInformation :=
         pluginsInfo (pluginConfigurations payload documentInfo s3KeyPrefix orchestrationDir);
       state_InstancePluginsInformation := state_InstancePluginsInformation docState |}
  else if decide (length (doc_MainSteps content) <> 0%nat) then
    {| state_DocumentInformation := state_DocumentInformation docState;
       state_DocumentType := state_DocumentType docState;
       state_SchemaVersion := state_SchemaVersion docState;
       state_PluginsInformation := state_PluginsInformation docState;
       state_InstancePluginsInformation :=
         fillInstancePlugins
           (instancePluginState payload documentInfo s3KeyPrefix orchestrationDir) 0
           (doc_MainSteps content)
           (replicate (length (doc_MainSteps content)) zeroPluginState) |}
  else docState.

(** ** InitializeDocumentState

    Returns the document state and the raw message as [newDocumentInfo]
    left it. *)
Definition InitializeDocumentState (env : Env) (payload : SendCommandPayload)
    (rawData : InstanceAssociation) : DocumentState * InstanceAssociation :=
  let '(documentInfo, rawData') := newDocumentInfo env rawData payload in
  let s3KeyPrefix :=
    Go.Join [payload_OutputS3KeyPrefix payload; payload_CommandID payload;
             info_InstanceID documentInfo] in
  let orchestrationRootDir :=
    Go.filepath_Join [DefaultDataStorePath env; info_InstanceID documentInfo;
                      DefaultDocumentRootDirName env; OrchestrationRootDir env] in
  let orchestrationDir :=
    Go.filepath_Join [orchestrationRootDir; info_DocumentID documentInfo] in
  let docState :=
    {| state_DocumentInformation := documentInfo;
       state_DocumentType := AssociationDocument;
       state_SchemaVersion := doc_SchemaVersion (payload_DocumentContent payload);
       state_PluginsInformation := ∅;
       state_InstancePluginsInformation := [] |} in
  (buildPluginsInfo payload documentInfo s3KeyPrefix orchestrationDir docState, rawData').

(** Compiling a raw association message: [ParseDocumentWithParams], then
    [InitializeDocumentState] on its payload. *)
Definition compile (env : Env) (rawData : InstanceAssociation)
  : Go.outcome (DocumentState * InstanceAssociation) :=
  payload ← ParseDocumentWithParams env rawData;
  mret (InitializeDocumentState env payload rawData).

(** Modelled from the spec: [times.ToIsoDashUTC] is outside the two source
    files; the run timestamp is an "ISO-8601 run timestamp", rendered in
    UTC with dashes for the colons: [YYYY-MM-DDThh-mm-ss.mmmZ], digits at
    the letter positions. *)
Definition isDigit (c : ascii) : bool :=
  (48 <=? nat_of_ascii c)%nat && (nat_of_ascii c <=? 57)%nat.

Fixpoint matchesLayout (layout s : string) : bool :=
  match layout, s with
  | EmptyString, EmptyString => true
  | String l layout', String c s' =>
      (if Ascii.eqb l "0" then isDigit c else Ascii.eqb l c) && matchesLayout layout' s'
  | _, _ => false
  end.

Definition isIsoDashUTC (runID : string) : bool :=
  matchesLayout "0000-00-00T00-00-00.000Z" runID.

End Parser.

(* ===================================================================== *)
(** * agent/inventory/inventory.go                                       *)
(* ===================================================================== *)

Module Inventory.

(** [inventory.Config], the sub-policy of one gatherer: opaque to the
    plugin, which only passes it on. *)
Definition Config : Type := string.

(** [inventory.Policy]: [InventoryPolicy] maps a gatherer name to its
    sub-policy. *)
Record Policy : Type := {
  InventoryPolicy : gmap string Config
}.

(** Modelled from the spec: [inventory.Item] is declared outside the two
    source files; "InventoryItem — gatherer name + collected payload
    (opaque to the orchestrator)". *)
Record Item : Type := {
  item_Name : string;
  item_Content : string
}.

(** [fmt.Sprintf("%s", item)] of that struct: its fields separated by one
    space, in braces. *)
Definition Sprintf_Item (item : Item) : string :=
  "{" +:+ item_Name item +:+ " " +:+ item_Content item +:+ "}".

(** The errors [VerifyAndRunGatherers] builds with [log.Errorf]:
    "Unrecognized inventory gatherer - %v ",
    "Encountered error while executing %v. Error - %v",
    "Size limit exceeded for collected data.". *)
Inductive error : Type :=
| UnrecognizedGatherer (name : string)
| GathererExecutionFailed (name : string) (cause : string)
| SizeLimitExceeded.

(** [gatherers.T]: [Run(context, config) (Item, error)]. *)
Record Gatherer : Type := {
  Run : Config -> Item * option string
}.

(** [*ssm.InventoryItem], the wire format; opaque here. *)
Definition SsmInventoryItem : Type := string.

(** [datauploader.T]. [ConvertToSsmInventoryItems] returns a slice and an
    error; [SendDataToSSM] returns nothing and is seen only as a call. *)
Record Uploader : Type := {
  ConvertToSsmInventoryItems : list Item -> list SsmInventoryItem * option string
}.

(** The fields of [Plugin] that the two functions read. *)
Record Plugin : Type := {
  location : string;
  registeredGatherers : gmap string Gatherer;
  uploader : Uploader
}.

(** The constants of package [inventory] (outside the two source files)
    that inventory.go reads. The size limits are untyped constants,
    converted to [float32] where they are compared. *)
Record Constants : Type := {
  InventoryPolicyDocName : string;
  SizeLimitKBPerInventoryType : Go.float32;
  TotalSizeLimitKB : Go.float32
}.

(** What [ApplyInventoryPolicy] reads from outside: the file system
    ([fileutil.Exists], [fileutil.ReadAllText]), the JSON decoder of the
    policy, and the order in which this run's [range] yields the keys of
    a policy map. *)
Record World : Type := {
  Exists : string -> bool;
  ReadAllText : string -> Go.outcome string;
  Unmarshal_policy : string -> Go.outcome Policy;
  range_keys : gmap string Config -> list string
}.

(** An order in which [range] may yield the keys of [m]: each key once. *)
Definition range_order (m : gmap string Config) (order : list string) : Prop :=
  NoDup order /\ list_to_set order = dom m.

(** The calls a run makes on its collaborators, in the order made. *)
Inductive call : Type :=
| CallRun (name : string) (config : Config)
| CallConvert (items : list Item)
| CallSend (inventoryItems : list SsmInventoryItem).

(** ** VerifyInventoryDataSize *)
Definition VerifyInventoryDataSize (k : Constants) (item : Item) (items : list Item) : bool :=
  let itemSize := Go.float32_of_Z (Z.of_nat (String.length (Sprintf_Item item))) in
  let itemsSize :=
    Go.float32_of_Z (Z.of_nat (String.length (Go.Sprintf_slice Sprintf_Item items))) in
  if Go.fgt (Go.fdiv itemSize (Go.float32_of_Z 1000)) (SizeLimitKBPerInventoryType k)
     || Go.fgt (Go.fdiv itemsSize (Go.float32_of_Z 1000)) (TotalSizeLimitKB k)
  then false else true.

(** ** VerifyAndRunGatherers

    The named results [items] and [err], and the calls made on gatherers so
    far. *)
Record Gathered : Type := {
  items : list Item;
  err : option error;
  calls : list call
}.

(** The loop [for name, _ := range policy.InventoryPolicy] over the names
    still to come, from the state reached so far; every [break] leaves the
    loop with [items] as it stands. *)
Fixpoint gatherLoop (k : Constants) (p : Plugin) (policy : Policy)
    (names : list string) (items : list Item) (calls : list call) : Gathered :=
  match names with
  | [] => {| items := items; err := None; calls := calls |}
  | name :: rest =>
      match registeredGatherers p !! name with
      | None =>
          {| items := items; err := Some (UnrecognizedGatherer name); calls := calls |}
      | Some gatherer =>
          let config := InventoryPolicy policy !!! name in
          let calls := calls ++ [CallRun name config] in
          match Run gatherer config with
          | (_, Some cause) =>
              {| items := items; err := Some (GathererExecutionFailed name cause);
                 calls := calls |}
          | (item, None) =>
              let items := items ++ [item] in
              if negb (VerifyInventoryDataSize k item items) then
                {| items := items; err := Some SizeLimitExceeded; calls := calls |}
              else gatherLoop k p policy rest items calls
          end
      end
  end.

(** [order] is the order in which this run's [range] yields the policy's
    gatherer names. *)
Definition VerifyAndRunGatherers (k : Constants) (p : Plugin) (policy : Policy)
    (order : list string) : Gathered :=
  gatherLoop k p policy order [] [].

(** ** ApplyInventoryPolicy

    The result is the sequence of calls made on the gatherers and on the
    uploader (logging apart). *)
Definition ApplyInventoryPolicy (k : Constants) (w : World) (p : Plugin) : list call :=
  let doc := Go.Join [location p; InventoryPolicyDocName k] in
  if Exists w doc then
    match ReadAllText w doc with
    | Go.Returned content =>
        match Unmarshal_policy w content with
        | Go.Returned policy =>
            let g := VerifyAndRunGatherers k p policy (range_keys w (InventoryPolicy policy)) in
            match err g with
            | Some _ => calls g
            | None =>
                let '(inventoryItems, _) := ConvertToSsmInventoryItems (uploader p) (items g) in
                calls g ++ [CallConvert (items g); CallSend inventoryItems]
            end
        | _ => []
        end
    | _ => []
    end
  else [].

(** The arguments of the [SendDataToSSM] calls among [cs]. *)
Definition sent (cs : list call) : list (list SsmInventoryItem) :=
  omap (fun c => match c with CallSend l => Some l | _ => None end) cs.

(** The names of the gatherers run among [cs]. *)
Definition invoked (cs : list call) : list string :=
  omap (fun c => match c with CallRun name _ => Some name | _ => None end) cs.

(** For the statements below: the item a registered gatherer returns for
    its sub-policy. *)
Definition gathered (p : Plugin) (policy : Policy) (name : string) : option Item :=
  gatherer ← registeredGatherers p !! name;
  Some (Run gatherer (InventoryPolicy policy !!! name)).1.

End Inventory.

(* ===================================================================== *)
(** * Concrete runs                                                      *)
(* ===================================================================== *)

(** The inputs on which the statements below are evaluated. *)
Module Scenario.
Import Parser Inventory.

(** *** An association document with one step *)

Definition step1 : InstancePluginConfig :=
  {| step_Action := "aws:runShellScript"; step_Name := "step1";
     step_Inputs := AnyJSON "{}"; step_Settings := AnyNil |}.

Definition oneStepDocument : DocumentContent :=
  {| doc_SchemaVersion := "2.0"; doc_RuntimeConfig := ∅;
     doc_MainSteps := [step1]; doc_Parameters := ∅ |}.

(** The same plugin in the legacy form, under the key [aws:runShellScript]. *)
Definition legacyDocument : DocumentContent :=
  {| doc_SchemaVersion := "1.2";
     doc_RuntimeConfig :=
       {[ "aws:runShellScript" := {| pc_Settings := AnyNil; pc_Properties := AnyJSON "{}" |} ]};
     doc_MainSteps := []; doc_Parameters := ∅ |}.

(** Collaborators: a clock read at one instant and rendered as [runID], a
    JSON decoder that yields [content], no parameter filtered out, nothing
    to substitute. *)
Definition env (runID : string) (content : DocumentContent) : Env :=
  {| clock_Now := 0%Z;
     ToIsoDashUTC := fun _ => runID;
     ToIso8601UTC := fun _ => "2016-10-31T11:59:00.000Z";
     Marshal_association := fun _ => Go.Returned "{}";
     Marshal_parameters := fun _ => Go.Returned "{}";
     Unmarshal_document := fun _ => Go.Returned content;
     ValidParameters := fun params => params;
     ReplacePluginParameters := fun payload _ => Go.Returned payload;
     DefaultDataStorePath := "/var/lib/amazon/ssm";
     DefaultDocumentRootDirName := "document";
     OrchestrationRootDir := "orchestration" |}.

Definition runID : string := "2016-10-31T12-00-00.000Z".
Definition laterRunID : string := "2016-10-31T12-30-00.000Z".

(** Association [assoc-1] on instance [i-1], output bucket [b], key prefix
    [p]; as received, its [DocumentID] is empty. *)
Definition rawData : InstanceAssociation :=
  {| raw_DocumentID := "";
     raw_Document := "{}";
     raw_Association :=
       {| assoc_Name := "AWS-RunShellScript";
          assoc_AssociationId := "assoc-1";
          assoc_InstanceId := "i-1";
          assoc_OutputLocation :=
            Some {| out_S3Location :=
                      Some {| s3_OutputS3KeyPrefix := Some "p";
                              s3_OutputS3BucketName := Some "b" |} |};
          assoc_Parameters := {[ "undeclared" := [Some "x"] ]} |};
     raw_CreateDate := 0%Z;
     raw_RunOnce := false |}.

(** The payload [ParseDocumentWithParams] builds from [rawData] when the
    document decodes to [content] and declares no parameter. *)
Definition payload (content : DocumentContent) : SendCommandPayload :=
  {| payload_Parameters := ∅;
     payload_DocumentContent := content;
     payload_CommandID := "assoc-1";
     payload_DocumentName := "AWS-RunShellScript";
     payload_OutputS3KeyPrefix := "p";
     payload_OutputS3BucketName := "b" |}.

(** *** Parameters *)

Definition declared : gmap string DocParameter :=
  {[ "commands" := {| param_ParamType := "StringList"; param_DefaultVal := AnyJSON "[]" |};
     "workingDirectory" := {| param_ParamType := "String"; param_DefaultVal := AnyJSON "/tmp" |} ]}.

Definition supplied : gmap string (list (option string)) :=
  {[ "commands" := [Some "ls"; Some "pwd"]; "undeclared" := [Some "x"] ]}.

Definition suppliedWithoutValue : gmap string (list (option string)) :=
  {[ "workingDirectory" := [] ]}.

(** *** Inventory *)

(** A payload of [n] bytes. *)
Fixpoint filler (n : nat) : string :=
  match n with
  | O => ""
  | S n' => String "x" (filler n')
  end.

(** Gatherers [A] and [B]; their items render to 500 and 400 bytes. *)
Definition itemA : Item := {| item_Name := "A"; item_Content := filler 496 |}.
Definition itemB : Item := {| item_Name := "B"; item_Content := filler 396 |}.
Definition gathererA : Gatherer := {| Run := fun _ => (itemA, None) |}.
Definition gathererB : Gatherer := {| Run := fun _ => (itemB, None) |}.

Definition policy : Policy := {| InventoryPolicy := {[ "A" := "{}"; "B" := "{}" ]} |}.

(** An uploader that converts, and one whose conversion fails after the
    first item. *)
Definition uploaderOk : Uploader :=
  {| ConvertToSsmInventoryItems := fun items => (map item_Name items, None) |}.

Definition plugin (u : Uploader) : Plugin :=
  {| location := "/etc/amazon/ssm";
     registeredGatherers := {[ "A" := gathererA; "B" := gathererB ]};
     uploader := u |}.

(** Limits of 1 KB per item and 0.8 KB in all, and the limits of 200 KB
    and 1024 KB. *)
Definition tightLimits : Constants :=
  {| InventoryPolicyDocName := "policy.json";
     SizeLimitKBPerInventoryType := Go.float32_of_Z 1;
     TotalSizeLimitKB := Go.fdiv (Go.float32_of_Z 8) (Go.float32_of_Z 10) |}.
Definition limits : Constants :=
  {| InventoryPolicyDocName := "policy.json";
     SizeLimitKBPerInventoryType := Go.float32_of_Z 200;
     TotalSizeLimitKB := Go.float32_of_Z 1024 |}.

(** A policy file that is there and decodes to [policy], with [range]
    yielding [A] then [B]; and the same file when it cannot be read. *)
Definition world : World :=
  {| Exists := fun _ => true;
     ReadAllText := fun _ => Go.Returned "{}";
     Unmarshal_policy := fun _ => Go.Returned policy;
     range_keys := fun _ => ["A"; "B"] |}.

End Scenario.

(** Further inputs: edge cases of the parameters, the steps and the
    gatherer registry. *)
Module Cases.
Import Parser Inventory.

(** A parameter declared with a type that [parseParameters] does not know,
    and a value supplied for it. *)
Definition declaredInteger : gmap string DocParameter :=
  {[ "count" := {| param_ParamType := "Integer"; param_DefaultVal := AnyJSON "3" |} ]}.
Definition suppliedInteger : gmap string (list (option string)) :=
  {[ "count" := [Some "7"] ]}.

(** A [String] parameter supplied with two values, a [StringList]
    parameter supplied with none. *)
Definition suppliedTwice : gmap string (list (option string)) :=
  {[ "workingDirectory" := [Some "/home"; Some "/root"]; "commands" := [] ]}.

(** What [parseParameters] makes of them under [Scenario.declared]. *)
Definition parsedTwice : gmap string Any :=
  {[ "workingDirectory" := AnyStringPtr (Some "/home"); "commands" := AnyStringPtrs [] ]}.

(** The entries of [Scenario.supplied] in the two orders [range] can
    yield them. *)
Definition entriesForward : list (string * list (option string)) :=
  [("commands", [Some "ls"; Some "pwd"]); ("undeclared", [Some "x"])].
Definition entriesBackward : list (string * list (option string)) :=
  [("undeclared", [Some "x"]); ("commands", [Some "ls"; Some "pwd"])].

(** A document that declares the parameters of [Scenario.declared], and
    an association that supplies [workingDirectory] without a value. *)
Definition documentWithParameters : DocumentContent :=
  {| doc_SchemaVersion := "2.0"; doc_RuntimeConfig := ∅;
     doc_MainSteps := [Scenario.step1]; doc_Parameters := Scenario.declared |}.

Definition rawDataWithoutValue : InstanceAssociation :=
  {| raw_DocumentID := "";
     raw_Document := "{}";
     raw_Association :=
       {| assoc_Name := "AWS-RunShellScript";
          assoc_AssociationId := "assoc-1";
          assoc_InstanceId := "i-1";
          assoc_OutputLocation := None;
          assoc_Parameters := Scenario.suppliedWithoutValue |};
     raw_CreateDate := 0%Z;
     raw_RunOnce := true |}.

(** An output location that names a bucket and no key prefix. *)
Definition rawDataBucketOnly : InstanceAssociation :=
  {| raw_DocumentID := "";
     raw_Document := "{}";
     raw_Association :=
       {| assoc_Name := "AWS-RunShellScript";
          assoc_AssociationId := "assoc-1";
          assoc_InstanceId := "i-1";
          assoc_OutputLocation :=
            Some {| out_S3Location :=
                      Some {| s3_OutputS3KeyPrefix := None;
                              s3_OutputS3BucketName := Some "b" |} |};
          assoc_Parameters := ∅ |};
     raw_CreateDate := 0%Z;
     raw_RunOnce := false |}.

(** Two steps with different names and the same action. *)
Definition step2 : InstancePluginConfig :=
  {| step_Action := "aws:runShellScript"; step_Name := "step2";
     step_Inputs := AnyJSON "[]"; step_Settings := AnyNil |}.

Definition twoStepsDocument : DocumentContent :=
  {| doc_SchemaVersion := "2.0"; doc_RuntimeConfig := ∅;
     doc_MainSteps := [Scenario.step1; step2]; doc_Parameters := ∅ |}.

(** A registry without gatherer [B]; a gatherer that fails; an empty
    policy. *)
Definition pluginWithoutB : Plugin :=
  {| location := "/etc/amazon/ssm";
     registeredGatherers := {[ "A" := Scenario.gathererA ]};
     uploader := Scenario.uploaderOk |}.

Definition gathererFailing : Gatherer :=
  {| Run := fun _ => (Scenario.itemB, Some "access denied") |}.

Definition pluginFailingB : Plugin :=
  {| location := "/etc/amazon/ssm";
     registeredGatherers := {[ "A" := Scenario.gathererA; "B" := gathererFailing ]};
     uploader := Scenario.uploaderOk |}.

Definition emptyPolicy : Policy := {| InventoryPolicy := ∅ |}.

Definition worldEmptyPolicy : World :=
  {| Exists := fun _ => true;
     ReadAllText := fun _ => Go.Returned "{}";
     Unmarshal_policy := fun _ => Go.Returned emptyPolicy;
     range_keys := fun _ => [] |}.

Definition worldAbsent : World :=
  {| Exists := fun _ => false;
     ReadAllText := fun _ => Go.Returned "{}";
     Unmarshal_policy := fun _ => Go.Returned Scenario.policy;
     range_keys := fun _ => ["A"; "B"] |}.

End Cases.

(* ===================================================================== *)
(** * Properties                                                         *)
(* ===================================================================== *)

(** ** The Go runtime model on a few inputs *)

Example Join_joins : Go.Join ["p"; "assoc-1"; "i-1"] = "p/assoc-1/i-1".
Proof. reflexivity. Qed.

Example Join_cleans : Go.Join [""; "a//b/"; "../c"; "."] = "a/c".
Proof. reflexivity. Qed.

Example Join_corner_cases :
  Go.Join ["/.."; ""] = "/" /\ Go.Join [""; ""] = "" /\ Go.Join ["a"; ".."] = "."
  /\ Go.Join [".."; "a"; "../.."] = "../..".
Proof. repeat split; reflexivity. Qed.

(** [float32(902) / 1000 > 0.8], and [float32(800) / 1000 > 0.8] is false. *)
Example float32_compare :
  let limit := Go.fdiv (Go.float32_of_Z 8) (Go.float32_of_Z 10) in
  Go.fgt (Go.fdiv (Go.float32_of_Z 902) (Go.float32_of_Z 1000)) limit = true
  /\ Go.fgt (Go.fdiv (Go.float32_of_Z 800) (Go.float32_of_Z 1000)) limit = false.
Proof. split; vm_compute; reflexivity. Qed.

(** ** Loops over maps that insert one entry per key *)

Section MapLoops.
Context {A B : Type}.

(** A [range] loop that stores [f k x] under each key [k] of [m] builds
    the map with exactly those entries. *)
Lemma map_fold_insert_lookup (f : string -> A -> B) (m : gmap string A) (k : string) :
  map_fold (fun i x acc => <[i := f i x]> acc) (∅ : gmap string B) m !! k = f k <$> m !! k.
Proof.
  apply (map_fold_weak_ind
           (fun (r : gmap string B) (m : gmap string A) => r !! k = f k <$> m !! k)).
  - by rewrite !lookup_empty.
  - intros i x m' r Hfresh IH.
    destruct (decide (i = k)) as [->|Hne].
    + by rewrite !lookup_insert_eq.
    + by rewrite !lookup_insert_ne.
Qed.

Lemma map_fold_insert_dom (f : string -> A -> B) (m : gmap string A) :
  dom (map_fold (fun i x acc => <[i := f i x]> acc) (∅ : gmap string B) m) = dom m.
Proof.
  apply set_eq. intros k. rewrite !elem_of_dom, map_fold_insert_lookup.
  by rewrite fmap_is_Some.
Qed.

End MapLoops.

(** ** parseParameters and the binding table *)

Section Parameters.
Import Parser.

Lemma parseParameters_step_cases paramsDef name param result :
  (indexOutOfRange paramsDef name param
   /\ parseParameters_step paramsDef name param result = Go.Panicked "index out of range")
  \/ (~ indexOutOfRange paramsDef name param
      /\ parseParameters_step paramsDef name param result
         = Go.Returned (match parsedEntry paramsDef name param with
                        | Some v => <[name := v]> result
                        | None => result
                        end)).
Proof.
  unfold parseParameters_step, parsedEntry, indexOutOfRange.
  destruct (paramsDef !! name) as [definition|] eqn:Hdef.
  - destruct (decide (param_ParamType definition = ParamTypeString)) as [Hs|Hs].
    + destruct param as [|first rest].
      * left. split; [|done]. split; [done|]. by exists definition.
      * right. split; [|done]. by intros [? _].
    + right. split.
      * intros [_ (d & Hd & Ht)]. by simplify_eq.
      * by destruct (decide (param_ParamType definition = ParamTypeStringList)).
  - right. split; [|done]. by intros [_ (d & Hd & _)].
Qed.

(** One more iteration, on a key not met before, keeps the loop's
    invariant: a panic if some parameter met so far is out of range, else
    the entries of the parameters met so far. *)
Lemma parseParameters_step_invariant paramsDef name param
    (met : gmap string (list (option string))) (r : Go.outcome (gmap string Any)) :
  met !! name = None ->
  (map_Exists (indexOutOfRange paramsDef) met /\ r = Go.Panicked "index out of range")
  \/ (~ map_Exists (indexOutOfRange paramsDef) met
      /\ r = Go.Returned (map_imap (parsedEntry paramsDef) met)) ->
  (map_Exists (indexOutOfRange paramsDef) (<[name := param]> met)
   /\ (result ← r; parseParameters_step paramsDef name param result)
      = Go.Panicked "index out of range")
  \/ (~ map_Exists (indexOutOfRange paramsDef) (<[name := param]> met)
      /\ (result ← r; parseParameters_step paramsDef name param result)
         = Go.Returned (map_imap (parsedEntry paramsDef) (<[name := param]> met))).
Proof.
  intros Hfresh [[Hbad ->]|[Hgood ->]]; unfold_outcome.
  - left. split; [|done]. by apply map_Exists_insert_2_2.
  - destruct (parseParameters_step_cases paramsDef name param
                (map_imap (parsedEntry paramsDef) met)) as [[Hout ->]|[Hin ->]].
    + left. split; [|done]. by apply map_Exists_insert_2_1.
    + right. split.
      * rewrite map_Exists_insert by done. tauto.
      * f_equal. rewrite map_imap_insert.
        destruct (parsedEntry paramsDef name param); [done|].
        rewrite delete_id; [done|]. by rewrite map_lookup_imap, Hfresh.
Qed.

(** The whole loop: it panics exactly when some supplied parameter is out
    of range, and otherwise returns the entries of the supplied
    parameters. *)
Lemma parseParameters_outcome params paramsDef :
  (map_Exists (indexOutOfRange paramsDef) params
   /\ parseParameters params paramsDef = Go.Panicked "index out of range")
  \/ (~ map_Exists (indexOutOfRange paramsDef) params
      /\ parseParameters params paramsDef
         = Go.Returned (map_imap (parsedEntry paramsDef) params)).
Proof.
  unfold parseParameters.
  apply (map_fold_weak_ind
    (fun (r : Go.outcome (gmap string Any)) (m : gmap string (list (option string))) =>
       (map_Exists (indexOutOfRange paramsDef) m /\ r = Go.Panicked "index out of range")
       \/ (~ map_Exists (indexOutOfRange paramsDef) m
           /\ r = Go.Returned (map_imap (parsedEntry paramsDef) m)))).
  - right. split; [apply map_Exists_empty|]. by rewrite map_imap_empty.
  - intros name param m r Hfresh IH. by apply parseParameters_step_invariant.
Qed.

(** In whatever order [range] yields the entries of [params], the loop
    does the same. *)
Lemma parseParameters_any_order params paramsDef entries :
  entries ≡ₚ map_to_list params ->
  parseParameters_in_order paramsDef entries = parseParameters params paramsDef.
Proof.
  intros Hperm.
  assert (NoDup entries.*1) as Hnodup.
  { rewrite Hperm. apply NoDup_fst_map_to_list. }
  assert ((list_to_map entries : gmap string (list (option string))) = params) as Hmap.
  { rewrite (list_to_map_proper entries (map_to_list params) Hnodup Hperm).
    apply list_to_map_to_list. }
  assert ((map_Exists (indexOutOfRange paramsDef) (list_to_map entries : gmap string (list (option string)))
           /\ parseParameters_in_order paramsDef entries = Go.Panicked "index out of range")
          \/ (~ map_Exists (indexOutOfRange paramsDef) (list_to_map entries : gmap string (list (option string)))
              /\ parseParameters_in_order paramsDef entries
                 = Go.Returned (map_imap (parsedEntry paramsDef) (list_to_map entries : gmap string (list (option string))))))
    as Hordered.
  { clear Hperm Hmap. unfold parseParameters_in_order.
    induction entries as [|[name param] entries IH] using rev_ind.
    - right. split; [apply map_Exists_empty|]. cbn. by rewrite map_imap_empty.
    - rewrite fmap_app in Hnodup. apply NoDup_app in Hnodup as (Hnodup & Hfresh & _).
      rewrite fold_left_app, list_to_map_snoc; cycle 1.
      { intros Hin. apply (Hfresh name Hin). cbn. by left. }
      cbn [fold_left fst snd]. apply parseParameters_step_invariant; [|by apply IH].
      apply not_elem_of_list_to_map_1. intros Hin. apply (Hfresh name Hin). cbn. by left. }
  rewrite Hmap in Hordered.
  destruct Hordered as [[H1 ->]|[H1 ->]];
    destruct (parseParameters_outcome params paramsDef) as [[H2 ->]|[H2 ->]];
    try done; tauto.
Qed.

Lemma parseParameters_Returned params paramsDef result :
  parseParameters params paramsDef = Go.Returned result ->
  result = map_imap (parsedEntry paramsDef) params.
Proof.
  intros H. destruct (parseParameters_outcome params paramsDef) as [[_ H']|[_ H']];
    rewrite H' in H; by simplify_eq.
Qed.

(** Every key of the result is both supplied and declared. *)
Lemma parseParameters_keys params paramsDef result name :
  parseParameters params paramsDef = Go.Returned result ->
  is_Some (result !! name) -> is_Some (params !! name) /\ is_Some (paramsDef !! name).
Proof.
  intros ->%parseParameters_Returned [v Hv].
  rewrite map_lookup_imap in Hv. unfold parsedEntry in Hv.
  destruct (params !! name) as [param|]; [|done]. cbn in Hv.
  destruct (paramsDef !! name); [|done]. eauto.
Qed.

(** An undeclared parameter does not change what the loop does. *)
Lemma parseParameters_undeclared params paramsDef name :
  paramsDef !! name = None ->
  parseParameters (delete name params) paramsDef = parseParameters params paramsDef.
Proof.
  intros Hundeclared.
  assert (Hex : map_Exists (indexOutOfRange paramsDef) (delete name params)
                <-> map_Exists (indexOutOfRange paramsDef) params).
  { split; [apply map_Exists_delete|].
    intros (i & x & Hi & Hout). exists i, x. split; [|done].
    rewrite lookup_delete_ne; [done|]. intros <-.
    destruct Hout as [_ (d & Hd & _)]. congruence. }
  assert (Himap : map_imap (parsedEntry paramsDef) (delete name params)
                  = map_imap (parsedEntry paramsDef) params).
  { rewrite map_imap_delete. apply delete_id.
    rewrite map_lookup_imap. destruct (params !! name); [|done]. cbn.
    unfold parsedEntry. by rewrite Hundeclared. }
  destruct (parseParameters_outcome params paramsDef) as [[H1 ->]|[H1 ->]];
    destruct (parseParameters_outcome (delete name params) paramsDef) as [[H2 ->]|[H2 ->]];
    try done; try tauto.
  by rewrite Himap.
Qed.

(** The defaults loop keeps every entry it finds and adds the default of
    every other declared parameter. *)
Lemma addDefaultValues_lookup declared validParams k :
  addDefaultValues declared validParams !! k
  = match validParams !! k with
    | Some v => Some v
    | None => param_DefaultVal <$> declared !! k
    end.
Proof.
  unfold addDefaultValues.
  apply (map_fold_weak_ind
    (fun (r : gmap string Any) (m : gmap string DocParameter) =>
       r !! k = match validParams !! k with
                | Some v => Some v
                | None => param_DefaultVal <$> m !! k
                end)).
  - rewrite lookup_empty. by destruct (validParams !! k).
  - intros i d m r Hfresh IH.
    destruct (decide (i = k)) as [->|Hne].
    + rewrite lookup_insert_eq. rewrite Hfresh in IH.
      destruct (r !! k) as [v|] eqn:Hr.
      * rewrite Hr. by destruct (validParams !! k).
      * rewrite lookup_insert_eq. by destruct (validParams !! k).
    + rewrite (lookup_insert_ne m) by done.
      destruct (r !! i); [done|]. by rewrite lookup_insert_ne.
Qed.

Lemma parseParameters_returns_iff params paramsDef :
  Go.returns (parseParameters params paramsDef) = true
  <-> ~ map_Exists (indexOutOfRange paramsDef) params.
Proof.
  destruct (parseParameters_outcome params paramsDef) as [[H ->]|[H ->]]; cbn.
  - split; [done|tauto].
  - tauto.
Qed.

(** What [ParseDocumentWithParams] hands to [ReplacePluginParameters] is
    the table of [resolveParameters]. *)
Lemma ParseDocumentWithParams_table env rawData payload' :
  ParseDocumentWithParams env rawData = Go.Returned payload' ->
  exists content table payload,
    Unmarshal_document env (raw_Document rawData) = Go.Returned content
    /\ resolveParameters env (assoc_Parameters (raw_Association rawData))
                         (doc_Parameters content) = Go.Returned table
    /\ payload_DocumentContent payload = content
    /\ ReplacePluginParameters env payload table = Go.Returned payload'.
Proof.
  unfold ParseDocumentWithParams, resolveParameters. unfold_outcome.
  destruct (Marshal_association env rawData); [|done..].
  destruct (Unmarshal_document env (raw_Document rawData)) as [content| |]; [|done..].
  destruct (parseParameters (assoc_Parameters (raw_Association rawData))
              (doc_Parameters content)) as [params| |] eqn:Hparse; [|done..].
  destruct (Marshal_parameters env params); [|done..].
  intros H. eexists content, _, _. split; [done|]. rewrite Hparse.
  split; [done|]. split; [|exact H]. done.
Qed.

(** C7. Parameter resolution ([parseParameters], [parameters.ValidParameters]
    and the defaults loop of [ParseDocumentWithParams]): the keys of the
    resulting binding table are declared parameters; a declared parameter
    that was not supplied appears with its default; a supplied parameter
    that is not declared gets no entry and changes nothing, failures
    included: the resolution does what it does without that parameter.
    [parameters.ValidParameters] is outside the source files: it is taken
    to return entries of its argument only. The resolution returns a
    table exactly when no [String] parameter is supplied without a
    value. *)
Theorem resolveParameters_binding_table (env : Env)
    (supplied : gmap string (list (option string)))
    (declared : gmap string DocParameter) :
  (forall m, dom (ValidParameters env m) ⊆ dom m) ->
  (forall table, resolveParameters env supplied declared = Go.Returned table ->
     dom table ⊆ dom declared
     /\ (forall k d, declared !! k = Some d -> supplied !! k = None ->
          table !! k = Some (param_DefaultVal d))
     /\ (forall k, is_Some (supplied !! k) -> declared !! k = None -> table !! k = None))
  /\ (forall k, declared !! k = None ->
       resolveParameters env (delete k supplied) declared
       = resolveParameters env supplied declared)
  /\ (Go.returns (resolveParameters env supplied declared) = true
       <-> ~ map_Exists (indexOutOfRange declared) supplied).
Proof.
  intros Hvalid. split; [|split].
  - intros table Hres. unfold resolveParameters in Hres. unfold_outcome.
    destruct (parseParameters supplied declared) as [params| |] eqn:Hparse; [|done..].
    injection Hres as <-.
    assert (Hkeys : forall k, is_Some (ValidParameters env params !! k) ->
                              is_Some (supplied !! k) /\ is_Some (declared !! k)).
    { intros k Hk. apply (parseParameters_keys _ _ _ _ Hparse).
      apply elem_of_dom, Hvalid. by apply elem_of_dom. }
    split; [|split].
    + intros k. rewrite !elem_of_dom, addDefaultValues_lookup.
      destruct (ValidParameters env params !! k) as [v|] eqn:Hv.
      * intros _. apply Hkeys. by rewrite Hv.
      * by rewrite fmap_is_Some.
    + intros k d Hd Hs. rewrite addDefaultValues_lookup, Hd.
      destruct (ValidParameters env params !! k) as [v|] eqn:Hv; [|done].
      destruct (Hkeys k) as [[? Hsup] _]; [by rewrite Hv|]. congruence.
    + intros k _ Hd. rewrite addDefaultValues_lookup, Hd.
      destruct (ValidParameters env params !! k) as [v|] eqn:Hv; [|done].
      destruct (Hkeys k) as [_ [? Hdecl]]; [by rewrite Hv|]. congruence.
  - intros k Hd. unfold resolveParameters. by rewrite parseParameters_undeclared.
  - rewrite <- parseParameters_returns_iff. unfold resolveParameters. unfold_outcome.
    by destruct (parseParameters supplied declared).
Qed.

(** C9. [parseParameters] reads [param[0]] of a supplied [String]
    parameter without a length test. When every supplied value list is
    non-empty the function returns; when a parameter declared [String] is
    supplied with an empty list the index is out of range and the function
    panics; it returns exactly when there is no such parameter. *)
Theorem parseParameters_first_value_bounds
    (params : gmap string (list (option string)))
    (paramsDef : gmap string DocParameter) :
  ((forall name param, params !! name = Some param -> param <> []) ->
   exists result, parseParameters params paramsDef = Go.Returned result)
  /\ (forall name definition,
        params !! name = Some [] -> paramsDef !! name = Some definition ->
        param_ParamType definition = ParamTypeString ->
        parseParameters params paramsDef = Go.Panicked "index out of range")
  /\ (Go.returns (parseParameters params paramsDef) = true
       <-> ~ map_Exists (indexOutOfRange paramsDef) params).
Proof.
  split; [|split].
  - intros Hnonempty.
    destruct (parseParameters_outcome params paramsDef) as [[H _]|[_ ->]]; [|eauto].
    destruct H as (name & param & Hsupplied & -> & _).
    by destruct (Hnonempty name [] Hsupplied).
  - intros name definition Hsupplied Hdeclared Hstring.
    destruct (parseParameters_outcome params paramsDef) as [[_ ->]|[H _]]; [done|].
    destruct H. exists name, []. split; [done|]. split; [done|]. eauto.
  - apply parseParameters_returns_iff.
Qed.

End Parameters.

(** ** The two plugin collections of the document state *)

Section PluginCollections.
Import Parser.

(** The [MainSteps] loop writes slot [index] at step [index]: started on
    a slice whose first slots are filled and whose remaining slots are
    as many as the steps left, it ends with one state per step, in the
    order of the steps. *)
Lemma fillInstancePlugins_from mk (filled : list PluginState) steps :
  fillInstancePlugins mk (length filled) steps
    (filled ++ replicate (length steps) zeroPluginState)
  = filled ++ map mk steps.
Proof.
  revert filled. induction steps as [|step rest IH]; intros filled; cbn.
  - done.
  - replace (length filled) with (length filled + 0)%nat at 2 by lia.
    rewrite insert_app_r. cbn.
    specialize (IH (filled ++ [mk step])).
    rewrite length_app in IH. cbn in IH.
    replace (length filled + 1)%nat with (S (length filled)) in IH by lia.
    by rewrite <- !app_assoc in IH.
Qed.

Lemma fillInstancePlugins_all mk steps :
  fillInstancePlugins mk 0 steps (replicate (length steps) zeroPluginState) = map mk steps.
Proof. exact (fillInstancePlugins_from mk [] steps). Qed.

(** The two loops of the [RuntimeConfig] branch, one plugin at a time. *)
Lemma pluginsInfo_lookup payload documentInfo s3KeyPrefix orchestrationDir name :
  pluginsInfo (pluginConfigurations payload documentInfo s3KeyPrefix orchestrationDir) !! name
  = (fun pluginConfig =>
       {| ps_Configuration :=
            {| cfg_Settings := pc_Settings pluginConfig;
               cfg_Properties := pc_Properties pluginConfig;
               cfg_OutputS3BucketName := payload_OutputS3BucketName payload;
               cfg_OutputS3KeyPrefix := BuildS3Path s3KeyPrefix name;
               cfg_OrchestrationDirectory := BuildPath orchestrationDir name;
               cfg_MessageId := info_MessageID documentInfo;
               cfg_BookKeepingFileName := info_DocumentID documentInfo |};
          ps_Name := name; ps_HasExecuted := false; ps_Id := name |})
    <$> doc_RuntimeConfig (payload_DocumentContent payload) !! name.
Proof.
  unfold pluginsInfo, pluginConfigurations.
  rewrite (map_fold_insert_lookup
             (fun key value => {| ps_Configuration := value; ps_Name := key;
                                  ps_HasExecuted := false; ps_Id := key |})).
  rewrite (map_fold_insert_lookup
             (fun pluginName pluginConfig =>
                {| cfg_Settings := pc_Settings pluginConfig;
                   cfg_Properties := pc_Properties pluginConfig;
                   cfg_OutputS3BucketName := payload_OutputS3BucketName payload;
                   cfg_OutputS3KeyPrefix := BuildS3Path s3KeyPrefix pluginName;
                   cfg_OrchestrationDirectory := BuildPath orchestrationDir pluginName;
                   cfg_MessageId := info_MessageID documentInfo;
                   cfg_BookKeepingFileName := info_DocumentID documentInfo |})).
  by destruct (doc_RuntimeConfig (payload_DocumentContent payload) !! name).
Qed.

Lemma pluginsInfo_dom payload documentInfo s3KeyPrefix orchestrationDir :
  dom (pluginsInfo (pluginConfigurations payload documentInfo s3KeyPrefix orchestrationDir))
  = dom (doc_RuntimeConfig (payload_DocumentContent payload)).
Proof.
  apply set_eq. intros name. rewrite !elem_of_dom, pluginsInfo_lookup.
  by rewrite fmap_is_Some.
Qed.

(** [buildPluginsInfo] on a state with both collections empty, by the
    three cases of its two tests. *)
Lemma buildPluginsInfo_cases payload documentInfo s3KeyPrefix orchestrationDir docState :
  state_PluginsInformation docState = ∅ ->
  state_InstancePluginsInformation docState = [] ->
  let content := payload_DocumentContent payload in
  let docState' := buildPluginsInfo payload documentInfo s3KeyPrefix orchestrationDir docState in
  (doc_RuntimeConfig content <> ∅
   /\ state_PluginsInformation docState'
      = pluginsInfo (pluginConfigurations payload documentInfo s3KeyPrefix orchestrationDir)
   /\ state_InstancePluginsInformation docState' = [])
  \/ (doc_RuntimeConfig content = ∅ /\ doc_MainSteps content <> []
      /\ state_PluginsInformation docState' = ∅
      /\ state_InstancePluginsInformation docState'
         = map (instancePluginState payload documentInfo s3KeyPrefix orchestrationDir)
               (doc_MainSteps content))
  \/ (doc_RuntimeConfig content = ∅ /\ doc_MainSteps content = []
      /\ docState' = docState).
Proof.
  intros Hmap Hseq content docState'. subst docState'. unfold buildPluginsInfo.
  fold content.
  destruct (decide (size (doc_RuntimeConfig content) <> 0%nat)) as [Hrc|Hrc].
  - left. cbn. split; [by apply map_size_non_empty_iff|]. done.
  - right. assert (doc_RuntimeConfig content = ∅) as Hempty.
    { apply map_size_empty_iff. lia. }
    destruct (decide (length (doc_MainSteps content) <> 0%nat)) as [Hms|Hms].
    + left. cbn. split; [done|]. split.
      * intros Hnil. by rewrite Hnil in Hms.
      * split; [done|]. apply fillInstancePlugins_all.
    + right. split; [done|]. split; [|done].
      apply length_zero_iff_nil. lia.
Qed.

End PluginCollections.

(** ** The compiled document state *)

Section DocumentStateFacts.
Import Parser.

(** [buildPluginsInfo] only writes the two plugin collections. *)
Lemma buildPluginsInfo_information payload documentInfo s3KeyPrefix orchestrationDir docState :
  state_DocumentInformation
    (buildPluginsInfo payload documentInfo s3KeyPrefix orchestrationDir docState)
  = state_DocumentInformation docState.
Proof.
  unfold buildPluginsInfo.
  destruct (decide (size (doc_RuntimeConfig (payload_DocumentContent payload)) <> 0%nat));
    [done|].
  by destruct (decide (length (doc_MainSteps (payload_DocumentContent payload)) <> 0%nat)).
Qed.

(** The document information of the state, and the raw message after the
    call, are those of [newDocumentInfo]. *)
Lemma InitializeDocumentState_newDocumentInfo env payload rawData :
  state_DocumentInformation (InitializeDocumentState env payload rawData).1
  = (newDocumentInfo env rawData payload).1
  /\ (InitializeDocumentState env payload rawData).2 = (newDocumentInfo env rawData payload).2.
Proof.
  unfold InitializeDocumentState. cbn. by rewrite buildPluginsInfo_information.
Qed.

(** A successful compile is a successful parse followed by
    [InitializeDocumentState]. *)
Lemma compile_Returned env rawData result :
  compile env rawData = Go.Returned result
  <-> exists payload, ParseDocumentWithParams env rawData = Go.Returned payload
                      /\ result = InitializeDocumentState env payload rawData.
Proof.
  unfold compile. unfold_outcome.
  destruct (ParseDocumentWithParams env rawData) as [payload| |].
  - split.
    + intros [= <-]. by exists payload.
    + by intros (? & [= <-] & ->).
  - split; [done|]. by intros (? & ? & _).
  - split; [done|]. by intros (? & ? & _).
Qed.

(** The three shapes of the state's plugin collections. *)
Lemma InitializeDocumentState_cases env payload rawData :
  let content := payload_DocumentContent payload in
  let documentInfo := (newDocumentInfo env rawData payload).1 in
  let s3KeyPrefix :=
    Go.Join [payload_OutputS3KeyPrefix payload; payload_CommandID payload;
             info_InstanceID documentInfo] in
  let docState := (InitializeDocumentState env payload rawData).1 in
  (doc_RuntimeConfig content <> ∅
   /\ state_InstancePluginsInformation docState = []
   /\ forall name,
        state_PluginsInformation docState !! name
        = (fun pluginConfig =>
             {| ps_Configuration :=
                  {| cfg_Settings := pc_Settings pluginConfig;
                     cfg_Properties := pc_Properties pluginConfig;
                     cfg_OutputS3BucketName := payload_OutputS3BucketName payload;
                     cfg_OutputS3KeyPrefix := BuildS3Path s3KeyPrefix name;
                     cfg_OrchestrationDirectory :=
                       BuildPath
                         (Go.filepath_Join [Go.filepath_Join [DefaultDataStorePath env; info_InstanceID documentInfo;
                                            DefaultDocumentRootDirName env;
                                            OrchestrationRootDir env];
                                   info_DocumentID documentInfo]) name;
                     cfg_MessageId := info_MessageID documentInfo;
                     cfg_BookKeepingFileName := info_DocumentID documentInfo |};
                ps_Name := name; ps_HasExecuted := false; ps_Id := name |})
          <$> doc_RuntimeConfig content !! name)
  \/ (doc_RuntimeConfig content = ∅ /\ doc_MainSteps content <> []
      /\ state_PluginsInformation docState = ∅
      /\ state_InstancePluginsInformation docState
         = map (instancePluginState payload documentInfo s3KeyPrefix
                  (Go.filepath_Join [Go.filepath_Join [DefaultDataStorePath env; info_InstanceID documentInfo;
                                     DefaultDocumentRootDirName env; OrchestrationRootDir env];
                            info_DocumentID documentInfo]))
               (doc_MainSteps content))
  \/ (doc_RuntimeConfig content = ∅ /\ doc_MainSteps content = []
      /\ state_PluginsInformation docState = ∅
      /\ state_InstancePluginsInformation docState = []).
Proof.
  intros content documentInfo s3KeyPrefix docState.
  subst docState. unfold InitializeDocumentState. cbn.
  match goal with
  | |- context [buildPluginsInfo ?p ?i ?s ?o ?d] =>
      destruct (buildPluginsInfo_cases p i s o d eq_refl eq_refl)
        as [(H1 & H2 & H3)|[(H1 & H2 & H3 & H4)|(H1 & H2 & H3)]]
  end.
  - left. split; [done|]. split; [done|]. intros name.
    rewrite H2. apply pluginsInfo_lookup.
  - right. left. done.
  - right. right. split; [done|]. split; [done|]. by rewrite H3.
Qed.

(** C5. In every compiled document state at most one of the two plugin
    collections is populated: with a non-empty [RuntimeConfig] the
    name-keyed map is populated (one entry per plugin name) and the
    sequence stays empty; else with a non-empty [MainSteps] the sequence is
    populated (one unit per step) and the map stays empty; else both stay
    empty, and the compile still returns a state. *)
Theorem at_most_one_plugin_collection (env : Env) (rawData : InstanceAssociation)
    (payload : SendCommandPayload) :
  ParseDocumentWithParams env rawData = Go.Returned payload ->
  exists docState rawData',
    compile env rawData = Go.Returned (docState, rawData')
    /\ (state_PluginsInformation docState = ∅
        \/ state_InstancePluginsInformation docState = [])
    /\ (doc_RuntimeConfig (payload_DocumentContent payload) <> ∅ ->
        state_PluginsInformation docState <> ∅
        /\ dom (state_PluginsInformation docState)
           = dom (doc_RuntimeConfig (payload_DocumentContent payload))
        /\ state_InstancePluginsInformation docState = [])
    /\ (doc_RuntimeConfig (payload_DocumentContent payload) = ∅ ->
        doc_MainSteps (payload_DocumentContent payload) <> [] ->
        state_InstancePluginsInformation docState <> []
        /\ length (state_InstancePluginsInformation docState)
           = length (doc_MainSteps (payload_DocumentContent payload))
        /\ state_PluginsInformation docState = ∅)
    /\ (doc_RuntimeConfig (payload_DocumentContent payload) = ∅ ->
        doc_MainSteps (payload_DocumentContent payload) = [] ->
        state_PluginsInformation docState = ∅
        /\ state_InstancePluginsInformation docState = []).
Proof.
  intros Hparse.
  exists (InitializeDocumentState env payload rawData).1,
         (InitializeDocumentState env payload rawData).2.
  split.
  { apply compile_Returned. exists payload. split; [done|]. by destruct (InitializeDocumentState _ _ _). }
  assert (Hdom : forall m : gmap string PluginState,
             dom m = dom (doc_RuntimeConfig (payload_DocumentContent payload)) ->
             doc_RuntimeConfig (payload_DocumentContent payload) <> ∅ -> m <> ∅).
  { intros m Hm Hne ->. rewrite dom_empty_L in Hm. symmetry in Hm.
    by apply dom_empty_iff_L in Hm. }
  destruct (InitializeDocumentState_cases env payload rawData)
    as [(Hrc & Hseq & Hmap)|[(Hrc & Hms & Hmap & Hseq)|(Hrc & Hms & Hmap & Hseq)]].
  - assert (dom (state_PluginsInformation (InitializeDocumentState env payload rawData).1)
            = dom (doc_RuntimeConfig (payload_DocumentContent payload))) as Hd.
    { apply set_eq. intros name. rewrite !elem_of_dom, Hmap. by rewrite fmap_is_Some. }
    split; [by right|]. split; [by eauto|]. split; [done|]. done.
  - split; [by left|]. split; [done|]. split; [|done].
    intros _ _. rewrite Hseq, length_map. split; [|done].
    destruct (doc_MainSteps (payload_DocumentContent payload)); done.
  - split; [by left|]. split; [done|]. split; [done|]. done.
Qed.

(** C6. With [MainSteps] populated and [RuntimeConfig] empty, the compiled
    sequence has one unit per step, in document order: unit [i] carries
    the inputs and settings of step [i], its id is the step's declared
    name and its name, the last segment of its output key prefix, is the
    step's action. In the legacy form the map key is both id and name. *)
Theorem step_units_follow_main_steps (env : Env) (payload : SendCommandPayload)
    (rawData : InstanceAssociation) :
  let content := payload_DocumentContent payload in
  let docState := (InitializeDocumentState env payload rawData).1 in
  (doc_RuntimeConfig content = ∅ -> doc_MainSteps content <> [] ->
   length (state_InstancePluginsInformation docState) = length (doc_MainSteps content)
   /\ map ps_Id (state_InstancePluginsInformation docState)
      = map step_Name (doc_MainSteps content)
   /\ map ps_Name (state_InstancePluginsInformation docState)
      = map step_Action (doc_MainSteps content)
   /\ forall i step, doc_MainSteps content !! i = Some step ->
        exists unit,
          state_InstancePluginsInformation docState !! i = Some unit
          /\ ps_Id unit = step_Name step
          /\ ps_Name unit = step_Action step
          /\ cfg_Properties (ps_Configuration unit) = step_Inputs step
          /\ cfg_Settings (ps_Configuration unit) = step_Settings step
          /\ cfg_OutputS3KeyPrefix (ps_Configuration unit)
             = BuildS3Path
                 (Go.Join [payload_OutputS3KeyPrefix payload; payload_CommandID payload;
                           assoc_InstanceId (raw_Association rawData)])
                 (step_Action step))
  /\ (forall key pluginConfig, doc_RuntimeConfig content !! key = Some pluginConfig ->
        exists unit,
          state_PluginsInformation docState !! key = Some unit
          /\ ps_Id unit = key /\ ps_Name unit = key
          /\ cfg_OutputS3KeyPrefix (ps_Configuration unit)
             = BuildS3Path
                 (Go.Join [payload_OutputS3KeyPrefix payload; payload_CommandID payload;
                           assoc_InstanceId (raw_Association rawData)])
                 key).
Proof.
  intros content docState. subst content docState.
  destruct (InitializeDocumentState_cases env payload rawData)
    as [(Hrc & Hseq & Hmap)|[(Hrc & Hms & Hmap & Hseq)|(Hrc & Hms & Hmap & Hseq)]].
  - split; [done|]. intros key pluginConfig Hkey. rewrite Hmap, Hkey. cbn. eauto 10.
  - split.
    + intros _ _. rewrite Hseq. rewrite length_map, !map_map. cbn.
      split; [done|]. split; [done|]. split; [done|].
      intros i step Hi. eexists. split.
      * change (@map) with (@fmap list _). rewrite list_lookup_fmap, Hi. done.
      * cbn. done.
    + intros key pluginConfig Hkey. rewrite Hrc, lookup_empty in Hkey. done.
  - split; [done|]. intros key pluginConfig Hkey. rewrite Hrc, lookup_empty in Hkey. done.
Qed.

(** With no declared parameter nothing is taken from the supplied ones. *)
Lemma parseParameters_none_declared params :
  parseParameters params ∅ = Go.Returned ∅.
Proof.
  destruct (parseParameters_outcome params ∅) as [[H _]|[_ ->]].
  - destruct H as (name & param & _ & _ & definition & Hd & _).
    by rewrite lookup_empty in Hd.
  - f_equal. apply map_eq. intros name.
    rewrite map_lookup_imap, lookup_empty.
    destruct (params !! name); [|done]. cbn. unfold parsedEntry. by rewrite lookup_empty.
Qed.

(** C2 (as the code has it). For association [assoc-1] on instance [i-1]
    with output bucket [b] and key prefix [p], and a document whose only
    step is named [step1] with action [aws:runShellScript], the compiled
    sequence has exactly one unit, with id [step1], name
    [aws:runShellScript], bucket [b] and output key prefix
    [p/assoc-1/i-1/aws:runShellScript]: the prefix is joined from the
    association id ([payload.CommandID]), not from the document id, and
    does not contain the run timestamp. The collaborators outside the
    source files are taken to succeed, the substitution leaving the
    payload as it is. *)
Theorem one_step_scenario_unit (env : Env) (rawData : InstanceAssociation)
    (content : DocumentContent) (inputs settings : Any) :
  assoc_AssociationId (raw_Association rawData) = "assoc-1" ->
  assoc_InstanceId (raw_Association rawData) = "i-1" ->
  assoc_OutputLocation (raw_Association rawData)
  = Some {| out_S3Location := Some {| s3_OutputS3KeyPrefix := Some "p";
                                      s3_OutputS3BucketName := Some "b" |} |} ->
  Go.returns (Marshal_association env rawData) = true ->
  Unmarshal_document env (raw_Document rawData) = Go.Returned content ->
  doc_RuntimeConfig content = ∅ ->
  doc_MainSteps content
  = [ {| step_Action := "aws:runShellScript"; step_Name := "step1";
         step_Inputs := inputs; step_Settings := settings |} ] ->
  doc_Parameters content = ∅ ->
  Go.returns (Marshal_parameters env ∅) = true ->
  (forall payload table, ReplacePluginParameters env payload table = Go.Returned payload) ->
  exists docState rawData' unit,
    compile env rawData = Go.Returned (docState, rawData')
    /\ state_PluginsInformation docState = ∅
    /\ state_InstancePluginsInformation docState = [unit]
    /\ ps_Id unit = "step1"
    /\ ps_Name unit = "aws:runShellScript"
    /\ cfg_OutputS3BucketName (ps_Configuration unit) = "b"
    /\ cfg_OutputS3KeyPrefix (ps_Configuration unit) = "p/assoc-1/i-1/aws:runShellScript".
Proof.
  intros Hid Hinstance Hout Hm1 Hdoc Hrc Hms Hparams Hm2 Hsubst.
  assert (exists payload,
            ParseDocumentWithParams env rawData = Go.Returned payload
            /\ payload_DocumentContent payload = content
            /\ payload_CommandID payload = "assoc-1"
            /\ payload_OutputS3KeyPrefix payload = "p"
            /\ payload_OutputS3BucketName payload = "b") as (payload & Hparse & Hc & Hcmd & Hp & Hb).
  { unfold ParseDocumentWithParams. unfold_outcome.
    destruct (Marshal_association env rawData); [|done..].
    rewrite Hdoc, Hparams, parseParameters_none_declared.
    destruct (Marshal_parameters env ∅); [|done..].
    rewrite Hsubst. eexists. split; [done|]. cbn.
    unfold outputS3KeyPrefix_of, outputS3BucketName_of. rewrite Hout, Hid. done. }
  exists (InitializeDocumentState env payload rawData).1,
         (InitializeDocumentState env payload rawData).2.
  destruct (InitializeDocumentState_cases env payload rawData)
    as [(Hrc' & _)|[(_ & _ & Hmap & Hseq)|(_ & Hms' & _)]].
  - by rewrite Hc in Hrc'.
  - rewrite Hc, Hms in Hseq. cbn in Hseq. eexists. split.
    { apply compile_Returned. exists payload. split; [done|].
      by destruct (InitializeDocumentState _ _ _). }
    split; [done|]. split; [exact Hseq|]. cbn.
    rewrite Hb, Hp, Hcmd, Hinstance. done.
  - by rewrite Hc, Hms in Hms'.
Qed.

(** C4 (as the code has it). A compile changes one field of the raw
    association message: [newDocumentInfo] stores the generated document
    id in [rawData.DocumentID]. The document body, the association (its
    identifiers, output location and parameters), the creation date and
    the run-once flag are as they were received. *)
Theorem compile_writes_only_DocumentID (env : Env) (rawData rawData' : InstanceAssociation)
    (docState : DocumentState) :
  compile env rawData = Go.Returned (docState, rawData') ->
  raw_Document rawData' = raw_Document rawData
  /\ raw_Association rawData' = raw_Association rawData
  /\ raw_CreateDate rawData' = raw_CreateDate rawData
  /\ raw_RunOnce rawData' = raw_RunOnce rawData
  /\ raw_DocumentID rawData' = info_DocumentID (state_DocumentInformation docState)
  /\ raw_DocumentID rawData'
     = assoc_AssociationId (raw_Association rawData) +:+ "." +:+ ToIsoDashUTC env (clock_Now env).
Proof.
  intros (payload & _ & Hinit)%compile_Returned.
  destruct (InitializeDocumentState_newDocumentInfo env payload rawData) as [Hinfo Hraw].
  rewrite <- Hinit in Hinfo, Hraw. cbn in Hinfo, Hraw. subst rawData'. rewrite Hinfo.
  done.
Qed.

End DocumentStateFacts.

(** ** Document ids *)

Section DocumentIds.
Import Parser.

Lemma string_length_app (s t : string) :
  String.length (s +:+ t) = (String.length s + String.length t)%nat.
Proof. induction s as [|c s IH]; simpl; [done|]. by rewrite IH. Qed.

(** Two concatenations with suffixes of one length agree only when both
    parts agree. *)
Lemma string_app_inj_suffix (s1 s2 t1 t2 : string) :
  String.length t1 = String.length t2 ->
  s1 +:+ t1 = s2 +:+ t2 -> s1 = s2 /\ t1 = t2.
Proof.
  intros Hlen. revert s2. induction s1 as [|c s1 IH]; intros [|c' s2] Heq; simpl in Heq.
  - done.
  - apply (f_equal String.length) in Heq.
    rewrite ?string_length_app in Heq. simpl in Heq.
    rewrite ?string_length_app in Heq. lia.
  - apply (f_equal String.length) in Heq.
    rewrite ?string_length_app in Heq. simpl in Heq.
    rewrite ?string_length_app in Heq. lia.
  - injection Heq as -> Heq. destruct (IH _ Heq) as [-> ->]. done.
Qed.

(** Strings of one layout have the layout's length. *)
Lemma matchesLayout_length (layout s : string) :
  matchesLayout layout s = true -> String.length s = String.length layout.
Proof.
  revert s. induction layout as [|l layout IH]; intros [|c s] H; cbn in *; try done.
  apply andb_true_iff in H as [_ H]. by rewrite (IH s H).
Qed.

Lemma isIsoDashUTC_length (runID : string) :
  isIsoDashUTC runID = true -> String.length runID = 24%nat.
Proof. intros H. by rewrite (matchesLayout_length _ _ H). Qed.

(** Without the fixed layout of the run timestamp the concatenation alone
    does not separate the two parts. *)
Example dot_concatenation_needs_the_layout :
  "a.b" +:+ "." +:+ "c" = "a" +:+ "." +:+ "b.c"
  /\ isIsoDashUTC "c" = false /\ isIsoDashUTC "2016-10-31T12-00-00.000Z" = true.
Proof. repeat split; reflexivity. Qed.

(** C8. The document id is the association id, a dot and the run
    timestamp. For run timestamps in the layout of [times.ToIsoDashUTC],
    two compiles whose (association id, run timestamp) pairs differ get
    different document ids. Within one compile the id is generated once:
    the document information, the raw message and the bookkeeping key of
    every plugin unit, in either collection, hold the same id. *)
Theorem document_id_injective_and_stable
    (env1 env2 : Env) (payload1 payload2 : SendCommandPayload)
    (rawData1 rawData2 : InstanceAssociation) :
  let compiled1 := InitializeDocumentState env1 payload1 rawData1 in
  let compiled2 := InitializeDocumentState env2 payload2 rawData2 in
  let info1 := state_DocumentInformation compiled1.1 in
  let info2 := state_DocumentInformation compiled2.1 in
  isIsoDashUTC (info_RunID info1) = true ->
  isIsoDashUTC (info_RunID info2) = true ->
  ((info_AssociationID info1, info_RunID info1) <> (info_AssociationID info2, info_RunID info2) ->
   info_DocumentID info1 <> info_DocumentID info2)
  /\ info_DocumentID info1
     = assoc_AssociationId (raw_Association rawData1) +:+ "." +:+ info_RunID info1
  /\ info_RunID info1 = ToIsoDashUTC env1 (clock_Now env1)
  /\ raw_DocumentID compiled1.2 = info_DocumentID info1
  /\ Forall (fun unit => cfg_BookKeepingFileName (ps_Configuration unit) = info_DocumentID info1)
            (state_InstancePluginsInformation compiled1.1)
  /\ map_Forall (fun _ unit =>
                   cfg_BookKeepingFileName (ps_Configuration unit) = info_DocumentID info1)
                (state_PluginsInformation compiled1.1).
Proof.
  intros compiled1 compiled2 info1 info2 Hiso1 Hiso2.
  destruct (InitializeDocumentState_newDocumentInfo env1 payload1 rawData1) as [Hinfo1 Hraw1].
  destruct (InitializeDocumentState_newDocumentInfo env2 payload2 rawData2) as [Hinfo2 _].
  fold compiled1 in Hinfo1, Hraw1. fold compiled2 in Hinfo2.
  fold info1 in Hinfo1. fold info2 in Hinfo2.
  split; [|split; [|split; [|split; [|split]]]].
  - intros Hpairs Hids. apply Hpairs.
    rewrite Hinfo1, Hinfo2 in Hids |- *. cbn in Hids |- *.
    rewrite Hinfo1 in Hiso1. rewrite Hinfo2 in Hiso2. cbn in Hiso1, Hiso2.
    assert (String.length (ToIsoDashUTC env1 (clock_Now env1))
            = String.length (ToIsoDashUTC env2 (clock_Now env2))) as Hlen.
    { by rewrite (isIsoDashUTC_length _ Hiso1), (isIsoDashUTC_length _ Hiso2). }
    apply string_app_inj_suffix in Hids as [Hassoc Hdot].
    + apply (string_app_inj_suffix "." "." _ _ Hlen) in Hdot as [_ Hrun].
      by rewrite Hassoc, Hrun.
    + by rewrite !string_length_app, Hlen.
  - by rewrite Hinfo1.
  - by rewrite Hinfo1.
  - by rewrite Hraw1, Hinfo1.
  - subst compiled1 info1. rewrite Hinfo1.
    destruct (InitializeDocumentState_cases env1 payload1 rawData1)
      as [(_ & -> & _)|[(_ & _ & _ & ->)|(_ & _ & _ & ->)]]; [done| |done].
    apply Forall_forall. intros unit Hin.
    apply list_elem_of_In, in_map_iff in Hin as (step & <- & _). done.
  - subst compiled1 info1. rewrite Hinfo1.
    destruct (InitializeDocumentState_cases env1 payload1 rawData1)
      as [(_ & _ & Hmap)|[(_ & _ & -> & _)|(_ & _ & -> & _)]];
      [|apply map_Forall_empty..].
    intros name unit Hunit. rewrite Hmap in Hunit.
    destruct (doc_RuntimeConfig (payload_DocumentContent payload1) !! name); [|done].
    by injection Hunit as <-.
Qed.

End DocumentIds.

(** ** The compiler on concrete inputs *)

Section CompilerRuns.
Import Parser.

(** C9 at [workingDirectory], declared [String]: supplied without a value
    the call panics, and with every supplied list non-empty it returns. *)
Lemma parseParameters_first_value_bounds_witness :
  parseParameters Scenario.suppliedWithoutValue Scenario.declared
  = Go.Panicked "index out of range"
  /\ exists result, parseParameters Scenario.supplied Scenario.declared = Go.Returned result.
Proof.
  split.
  - apply (proj1 (proj2 (parseParameters_first_value_bounds
                           Scenario.suppliedWithoutValue Scenario.declared))
             "workingDirectory"
             {| param_ParamType := "String"; param_DefaultVal := AnyJSON "/tmp" |});
      reflexivity.
  - apply (proj1 (parseParameters_first_value_bounds Scenario.supplied Scenario.declared)).
    intros name param Hsupplied.
    apply (map_Forall_lookup_1
             (fun (_ : string) (param : list (option string)) => param <> [])
             Scenario.supplied name param); [|exact Hsupplied].
    apply (bool_decide_unpack _). exact I.
Defined.

(** C7 with one parameter supplied and declared, one declared only and
    one supplied only. *)
Lemma resolveParameters_binding_table_witness :
  exists table,
    resolveParameters (Scenario.env Scenario.runID Scenario.oneStepDocument)
      Scenario.supplied Scenario.declared = Go.Returned table
    /\ dom table ⊆ dom Scenario.declared
    /\ table !! "commands" = Some (AnyStringPtrs [Some "ls"; Some "pwd"])
    /\ table !! "workingDirectory" = Some (AnyJSON "/tmp")
    /\ table !! "undeclared" = None.
Proof.
  destruct (resolveParameters_binding_table
              (Scenario.env Scenario.runID Scenario.oneStepDocument)
              Scenario.supplied Scenario.declared) as (Htable & _ & _).
  { intros m. reflexivity. }
  eexists. split; [reflexivity|].
  edestruct Htable as (Hdom & Hdefault & Hdropped); [reflexivity|].
  split; [exact Hdom|]. split; [reflexivity|]. split.
  - apply (Hdefault "workingDirectory"
             {| param_ParamType := "String"; param_DefaultVal := AnyJSON "/tmp" |});
      reflexivity.
  - apply Hdropped; [|reflexivity]. eexists. reflexivity.
Defined.

Lemma scenario_parse content :
  doc_Parameters content = ∅ ->
  ParseDocumentWithParams (Scenario.env Scenario.runID content) Scenario.rawData
  = Go.Returned (Scenario.payload content).
Proof.
  intros Hnone. unfold ParseDocumentWithParams. unfold_outcome. cbn.
  rewrite Hnone, parseParameters_none_declared. done.
Qed.

(** C2, as stated, on the scenario itself: the one unit's output key
    prefix is [p/assoc-1/i-1/aws:runShellScript]; the prefix of the claim,
    with the run id behind the association id, is another string. *)
Lemma scenario_prefix_has_no_run_id :
  exists docState rawData' unit,
    compile (Scenario.env Scenario.runID Scenario.oneStepDocument) Scenario.rawData
    = Go.Returned (docState, rawData')
    /\ state_InstancePluginsInformation docState = [unit]
    /\ info_RunID (state_DocumentInformation docState) = Scenario.runID
    /\ cfg_OutputS3KeyPrefix (ps_Configuration unit) = "p/assoc-1/i-1/aws:runShellScript"
    /\ Go.Join ["p"; "assoc-1." +:+ Scenario.runID; "i-1"; "aws:runShellScript"]
       = "p/assoc-1.2016-10-31T12-00-00.000Z/i-1/aws:runShellScript"
    /\ cfg_OutputS3KeyPrefix (ps_Configuration unit)
       <> Go.Join ["p"; "assoc-1." +:+ Scenario.runID; "i-1"; "aws:runShellScript"].
Proof.
  eexists _, _, _. split; [reflexivity|]. split; [reflexivity|].
  split; [reflexivity|]. split; [reflexivity|]. split; [reflexivity|]. discriminate.
Qed.

Lemma one_step_scenario_unit_witness :
  exists docState rawData' unit,
    compile (Scenario.env Scenario.runID Scenario.oneStepDocument) Scenario.rawData
    = Go.Returned (docState, rawData')
    /\ state_PluginsInformation docState = ∅
    /\ state_InstancePluginsInformation docState = [unit]
    /\ ps_Id unit = "step1"
    /\ ps_Name unit = "aws:runShellScript"
    /\ cfg_OutputS3BucketName (ps_Configuration unit) = "b"
    /\ cfg_OutputS3KeyPrefix (ps_Configuration unit) = "p/assoc-1/i-1/aws:runShellScript".
Proof.
  apply (one_step_scenario_unit (Scenario.env Scenario.runID Scenario.oneStepDocument)
           Scenario.rawData Scenario.oneStepDocument (AnyJSON "{}") AnyNil);
    first [reflexivity | intros payload table; reflexivity].
Defined.

(** C4, as stated, on the scenario: the message arrives with an empty
    [DocumentID] and leaves the compile with the generated one. *)
Lemma scenario_compile_writes_DocumentID :
  exists docState rawData',
    compile (Scenario.env Scenario.runID Scenario.oneStepDocument) Scenario.rawData
    = Go.Returned (docState, rawData')
    /\ raw_DocumentID Scenario.rawData = ""
    /\ raw_DocumentID rawData' = "assoc-1.2016-10-31T12-00-00.000Z"
    /\ rawData' <> Scenario.rawData.
Proof.
  eexists _, _. split; [reflexivity|]. split; [reflexivity|]. split; [reflexivity|].
  discriminate.
Qed.

Lemma compile_writes_only_DocumentID_witness :
  exists docState rawData',
    compile (Scenario.env Scenario.runID Scenario.oneStepDocument) Scenario.rawData
    = Go.Returned (docState, rawData')
    /\ raw_Document rawData' = raw_Document Scenario.rawData
    /\ raw_Association rawData' = raw_Association Scenario.rawData
    /\ raw_CreateDate rawData' = raw_CreateDate Scenario.rawData
    /\ raw_RunOnce rawData' = raw_RunOnce Scenario.rawData
    /\ raw_DocumentID rawData' = info_DocumentID (state_DocumentInformation docState)
    /\ raw_DocumentID rawData' = "assoc-1" +:+ "." +:+ Scenario.runID.
Proof.
  eexists _, _. split; [reflexivity|].
  apply (compile_writes_only_DocumentID
           (Scenario.env Scenario.runID Scenario.oneStepDocument) Scenario.rawData).
  reflexivity.
Defined.

(** C5 on the legacy document: the map has the one plugin, the sequence
    is empty. *)
Lemma at_most_one_plugin_collection_witness :
  exists docState rawData',
    compile (Scenario.env Scenario.runID Scenario.legacyDocument) Scenario.rawData
    = Go.Returned (docState, rawData')
    /\ dom (state_PluginsInformation docState) = dom (doc_RuntimeConfig Scenario.legacyDocument)
    /\ state_InstancePluginsInformation docState = [].
Proof.
  destruct (at_most_one_plugin_collection
              (Scenario.env Scenario.runID Scenario.legacyDocument) Scenario.rawData
              (Scenario.payload Scenario.legacyDocument))
    as (docState & rawData' & Hcompile & _ & Hlegacy & _).
  { apply scenario_parse. reflexivity. }
  exists docState, rawData'. split; [exact Hcompile|].
  destruct Hlegacy as (_ & Hdom & Hseq); [discriminate|]. split; [exact Hdom|exact Hseq].
Defined.

(** C6 on the one-step document and on the legacy document. *)
Lemma step_units_follow_main_steps_witness :
  (let docState := (InitializeDocumentState
                      (Scenario.env Scenario.runID Scenario.oneStepDocument)
                      (Scenario.payload Scenario.oneStepDocument) Scenario.rawData).1 in
   map ps_Id (state_InstancePluginsInformation docState) = ["step1"]
   /\ map ps_Name (state_InstancePluginsInformation docState) = ["aws:runShellScript"])
  /\ (let docState := (InitializeDocumentState
                         (Scenario.env Scenario.runID Scenario.legacyDocument)
                         (Scenario.payload Scenario.legacyDocument) Scenario.rawData).1 in
      exists unit,
        state_PluginsInformation docState !! "aws:runShellScript" = Some unit
        /\ ps_Id unit = "aws:runShellScript" /\ ps_Name unit = "aws:runShellScript").
Proof.
  split.
  - destruct (proj1 (step_units_follow_main_steps
                       (Scenario.env Scenario.runID Scenario.oneStepDocument)
                       (Scenario.payload Scenario.oneStepDocument) Scenario.rawData))
      as (_ & Hid & Hname & _); [reflexivity|discriminate|].
    split; [exact Hid|exact Hname].
  - destruct (proj2 (step_units_follow_main_steps
                       (Scenario.env Scenario.runID Scenario.legacyDocument)
                       (Scenario.payload Scenario.legacyDocument) Scenario.rawData)
                "aws:runShellScript"
                {| pc_Settings := AnyNil; pc_Properties := AnyJSON "{}" |})
      as (unit & Hunit & Hid & Hname & _); [reflexivity|].
    exists unit. split; [exact Hunit|]. split; [exact Hid|exact Hname].
Defined.

(** C8 on two runs of the same association, half an hour apart. *)
Lemma document_id_injective_and_stable_witness :
  let compiled1 := InitializeDocumentState
                     (Scenario.env Scenario.runID Scenario.oneStepDocument)
                     (Scenario.payload Scenario.oneStepDocument) Scenario.rawData in
  let compiled2 := InitializeDocumentState
                     (Scenario.env Scenario.laterRunID Scenario.oneStepDocument)
                     (Scenario.payload Scenario.oneStepDocument) Scenario.rawData in
  info_DocumentID (state_DocumentInformation compiled1.1) = "assoc-1.2016-10-31T12-00-00.000Z"
  /\ info_DocumentID (state_DocumentInformation compiled1.1)
     <> info_DocumentID (state_DocumentInformation compiled2.1)
  /\ raw_DocumentID compiled1.2 = info_DocumentID (state_DocumentInformation compiled1.1).
Proof.
  intros compiled1 compiled2.
  destruct (document_id_injective_and_stable
              (Scenario.env Scenario.runID Scenario.oneStepDocument)
              (Scenario.env Scenario.laterRunID Scenario.oneStepDocument)
              (Scenario.payload Scenario.oneStepDocument)
              (Scenario.payload Scenario.oneStepDocument)
              Scenario.rawData Scenario.rawData)
    as (Hinj & Hid & _ & Hraw & _); [reflexivity|reflexivity|].
  split; [exact Hid|]. split; [|exact Hraw].
  apply Hinj. discriminate.
Defined.

End CompilerRuns.

(** ** The gatherer loop *)

Section GathererLoop.
Import Inventory.
Variables (k : Constants) (p : Plugin) (policy : Policy).

Lemma invoked_app (cs1 cs2 : list call) : invoked (cs1 ++ cs2) = invoked cs1 ++ invoked cs2.
Proof. unfold invoked. apply omap_app. Qed.

Lemma sent_app (cs1 cs2 : list call) : sent (cs1 ++ cs2) = sent cs1 ++ sent cs2.
Proof. unfold sent. apply omap_app. Qed.

(** The loop calls gatherers only, each with its own sub-policy: the
    calls it adds are the [Run] calls of the names it adds to [invoked]. *)
Lemma gatherLoop_calls names items0 calls0 :
  let g := gatherLoop k p policy names items0 calls0 in
  exists ran,
    calls g = calls0 ++ map (fun name => CallRun name (InventoryPolicy policy !!! name)) ran
    /\ ran `prefix_of` names
    /\ (err g = None -> ran = names).
Proof.
  revert items0 calls0. induction names as [|name rest IH]; intros items0 calls0; cbn.
  - exists []. by rewrite app_nil_r.
  - destruct (registeredGatherers p !! name) as [gatherer|]; cbn.
    + destruct (Run gatherer (InventoryPolicy policy !!! name)) as [item [cause|]]; cbn.
      * exists [name]. split; [done|]. split; [|done]. by apply prefix_cons, prefix_nil.
      * destruct (VerifyInventoryDataSize k item (items0 ++ [item])); cbn.
        -- destruct (IH (items0 ++ [item])
                       (calls0 ++ [CallRun name (InventoryPolicy policy !!! name)]))
             as (ran & Hcalls & Hprefix & Hall).
           exists (name :: ran). split; [|split].
           ++ rewrite Hcalls. by rewrite <- app_assoc.
           ++ by apply prefix_cons.
           ++ intros Hok. by rewrite (Hall Hok).
        -- exists [name]. split; [done|]. split; [|done]. by apply prefix_cons, prefix_nil.
    + exists []. split; [by rewrite app_nil_r|]. split; [apply prefix_nil|done].
Qed.

Lemma gathered_Some name gatherer item err :
  registeredGatherers p !! name = Some gatherer ->
  Run gatherer (InventoryPolicy policy !!! name) = (item, err) ->
  gathered p policy name = Some item.
Proof. intros Hreg Hrun. unfold gathered. rewrite Hreg. cbn. by rewrite Hrun. Qed.

Lemma omap_gathered_cons name rest item :
  gathered p policy name = Some item ->
  omap (gathered p policy) (name :: rest) = item :: omap (gathered p policy) rest.
Proof. intros H. cbn. by rewrite H. Qed.

(** Without an error every name was run and gave one item. *)
Lemma gatherLoop_ok names items0 calls0 :
  let g := gatherLoop k p policy names items0 calls0 in
  err g = None ->
  items g = items0 ++ omap (gathered p policy) names
  /\ length (omap (gathered p policy) names) = length names.
Proof.
  revert items0 calls0. induction names as [|name rest IH]; intros items0 calls0; cbv zeta.
  - intros _. cbn. by rewrite app_nil_r.
  - cbn [gatherLoop].
    destruct (registeredGatherers p !! name) as [gatherer|] eqn:Hreg; [|done].
    destruct (Run gatherer (InventoryPolicy policy !!! name)) as [item [cause|]] eqn:Hrun;
      [done|].
    destruct (VerifyInventoryDataSize k item (items0 ++ [item])); cbn [negb]; [|done].
    intros Hok. destruct (IH _ _ Hok) as [Hitems Hlen].
    rewrite (omap_gathered_cons name rest item (gathered_Some _ _ _ _ Hreg Hrun)).
    rewrite Hitems, <- app_assoc. cbn. by rewrite Hlen.
Qed.

(** With an error the loop stopped at one name: the names before it were
    run and gave one item each, and [items] holds those items, followed
    on a size breach by the item of that name, the one that failed the
    size test. *)
Lemma gatherLoop_err names items0 calls0 e :
  let g := gatherLoop k p policy names items0 calls0 in
  err g = Some e ->
  exists before name rest,
    names = before ++ name :: rest
    /\ length (omap (gathered p policy) before) = length before
    /\ match e with
       | UnrecognizedGatherer n =>
           n = name /\ registeredGatherers p !! name = None
           /\ items g = items0 ++ omap (gathered p policy) before
       | GathererExecutionFailed n cause =>
           n = name
           /\ (exists gatherer,
                 registeredGatherers p !! name = Some gatherer
                 /\ (Run gatherer (InventoryPolicy policy !!! name)).2 = Some cause)
           /\ items g = items0 ++ omap (gathered p policy) before
       | SizeLimitExceeded =>
           exists item,
             gathered p policy name = Some item
             /\ items g = items0 ++ omap (gathered p policy) before ++ [item]
             /\ VerifyInventoryDataSize k item (items g) = false
       end.
Proof.
  revert items0 calls0. induction names as [|name rest IH]; intros items0 calls0; cbv zeta.
  - done.
  - cbn [gatherLoop].
    destruct (registeredGatherers p !! name) as [gatherer|] eqn:Hreg.
    + destruct (Run gatherer (InventoryPolicy policy !!! name)) as [item [cause|]] eqn:Hrun.
      * intros [= <-]. exists [], name, rest. split; [done|]. split; [done|].
        split; [done|]. split; [|by rewrite app_nil_r].
        exists gatherer. by rewrite Hrun.
      * pose proof (gathered_Some _ _ _ _ Hreg Hrun) as Hitem.
        destruct (VerifyInventoryDataSize k item (items0 ++ [item])) eqn:Hsize; cbn [negb].
        -- intros Herr.
           destruct (IH _ _ Herr) as (before & name' & rest' & -> & Hlen & He).
           exists (name :: before), name', rest'. split; [done|].
           rewrite (omap_gathered_cons name before item Hitem).
           split; [cbn; by rewrite Hlen|].
           destruct e as [n|n cause|].
           ++ destruct He as (-> & Hnone & ->). by rewrite <- app_assoc.
           ++ destruct He as (-> & Hfail & ->). by rewrite <- app_assoc.
           ++ destruct He as (item' & Hitem' & Hitems & Hbreach).
              exists item'. split; [done|]. rewrite Hitems, <- app_assoc in Hbreach |- *.
              done.
        -- intros [= <-]. exists [], name, rest. split; [done|]. split; [done|].
           exists item. done.
    + intros [= <-]. exists [], name, rest. split; [done|]. split; [done|].
      split; [done|]. split; [done|]. by rewrite app_nil_r.
Qed.

End GathererLoop.

(** ** The inventory orchestrator *)

Section Orchestrator.
Import Inventory.

Lemma invoked_runs (f : string -> Config) (names : list string) :
  invoked (map (fun name => CallRun name (f name)) names) = names.
Proof. induction names as [|name names IH]; cbn; [done|]. unfold invoked in IH. by rewrite IH. Qed.

Lemma sent_runs (f : string -> Config) (names : list string) :
  sent (map (fun name => CallRun name (f name)) names) = [].
Proof. induction names as [|name names IH]; cbn; [done|]. exact IH. Qed.

(** The calls of [VerifyAndRunGatherers]: one [Run] per name of a prefix
    of the iteration order. *)
Lemma VerifyAndRunGatherers_calls k p policy order :
  let g := VerifyAndRunGatherers k p policy order in
  calls g = map (fun name => CallRun name (InventoryPolicy policy !!! name)) (invoked (calls g))
  /\ invoked (calls g) `prefix_of` order
  /\ (err g = None -> invoked (calls g) = order)
  /\ sent (calls g) = [].
Proof.
  cbv zeta. unfold VerifyAndRunGatherers.
  destruct (gatherLoop_calls k p policy order [] []) as (ran & Hcalls & Hprefix & Hall).
  cbn in Hcalls. rewrite Hcalls, invoked_runs, sent_runs. done.
Qed.

(** C1 (as the code has it). When [VerifyAndRunGatherers] returns an
    error its [items] result is not emptied. The run stopped at one
    gatherer name of the iteration order; [items] holds, in that order,
    the item of every gatherer before it, and after a size-limit breach
    also the item of that gatherer, the one that failed the size test.
    The batch is dropped by the caller: [ApplyInventoryPolicy], reading
    this policy, makes the gatherer calls and then neither converts nor
    sends. *)
Theorem error_returns_items_collected_so_far (k : Constants) (p : Plugin) (policy : Policy)
    (order : list string) (e : error) :
  err (VerifyAndRunGatherers k p policy order) = Some e ->
  (exists before name rest,
     order = before ++ name :: rest
     /\ length (omap (gathered p policy) before) = length before
     /\ match e with
        | UnrecognizedGatherer n =>
            n = name /\ registeredGatherers p !! name = None
            /\ items (VerifyAndRunGatherers k p policy order)
               = omap (gathered p policy) before
        | GathererExecutionFailed n cause =>
            n = name
            /\ (exists gatherer,
                  registeredGatherers p !! name = Some gatherer
                  /\ (Run gatherer (InventoryPolicy policy !!! name)).2 = Some cause)
            /\ items (VerifyAndRunGatherers k p policy order)
               = omap (gathered p policy) before
        | SizeLimitExceeded =>
            exists item,
              gathered p policy name = Some item
              /\ items (VerifyAndRunGatherers k p policy order)
                 = omap (gathered p policy) before ++ [item]
              /\ VerifyInventoryDataSize k item (items (VerifyAndRunGatherers k p policy order))
                 = false
        end)
  /\ (forall w content,
        Exists w (Go.Join [location p; InventoryPolicyDocName k]) = true ->
        ReadAllText w (Go.Join [location p; InventoryPolicyDocName k]) = Go.Returned content ->
        Unmarshal_policy w content = Go.Returned policy ->
        range_keys w (InventoryPolicy policy) = order ->
        ApplyInventoryPolicy k w p = calls (VerifyAndRunGatherers k p policy order)
        /\ sent (ApplyInventoryPolicy k w p) = []).
Proof.
  intros Herr. split.
  - exact (gatherLoop_err k p policy order [] [] e Herr).
  - intros w content Hexists Hread Hdecode Horder.
    assert (ApplyInventoryPolicy k w p = calls (VerifyAndRunGatherers k p policy order)) as ->.
    { unfold ApplyInventoryPolicy. by rewrite Hexists, Hread, Hdecode, Horder, Herr. }
    split; [done|]. apply VerifyAndRunGatherers_calls.
Qed.



End Orchestrator.

(** ** The orchestrator on concrete inputs *)

Section OrchestratorRuns.
Import Inventory.

Lemma range_order_AB : range_order (InventoryPolicy Scenario.policy) ["A"; "B"].
Proof. split; [|reflexivity]. apply (bool_decide_unpack _). exact I. Qed.

Lemma range_order_BA : range_order (InventoryPolicy Scenario.policy) ["B"; "A"].
Proof. split; [|reflexivity]. apply (bool_decide_unpack _). exact I. Qed.

(** C1, as stated, on gatherers [A] (500 bytes) and [B] (400 bytes) under
    an aggregate limit of 0.8 KB: the run ends in the size-limit error and
    returns both items. *)
Lemma size_breach_returns_both_items :
  range_order (InventoryPolicy Scenario.policy) ["A"; "B"]
  /\ String.length (Sprintf_Item Scenario.itemA) = 500%nat
  /\ String.length (Sprintf_Item Scenario.itemB) = 400%nat
  /\ err (VerifyAndRunGatherers Scenario.tightLimits (Scenario.plugin Scenario.uploaderOk)
            Scenario.policy ["A"; "B"]) = Some SizeLimitExceeded
  /\ items (VerifyAndRunGatherers Scenario.tightLimits (Scenario.plugin Scenario.uploaderOk)
              Scenario.policy ["A"; "B"]) = [Scenario.itemA; Scenario.itemB].
Proof.
  split; [exact range_order_AB|].
  split; [reflexivity|]. split; [reflexivity|]. split; reflexivity.
Qed.

Lemma error_returns_items_collected_so_far_witness :
  exists before name rest,
    ["A"; "B"] = before ++ name :: rest
    /\ exists item,
         gathered (Scenario.plugin Scenario.uploaderOk) Scenario.policy name = Some item
         /\ items (VerifyAndRunGatherers Scenario.tightLimits
                     (Scenario.plugin Scenario.uploaderOk) Scenario.policy ["A"; "B"])
            = omap (gathered (Scenario.plugin Scenario.uploaderOk) Scenario.policy) before
              ++ [item].
Proof.
  destruct (error_returns_items_collected_so_far Scenario.tightLimits
              (Scenario.plugin Scenario.uploaderOk) Scenario.policy ["A"; "B"]
              SizeLimitExceeded) as [(before & name & rest & Horder & _ & item & Hitem & Hitems & _) _].
  { reflexivity. }
  exists before, name, rest. split; [exact Horder|]. exists item. split; [exact Hitem|exact Hitems].
Defined.





End OrchestratorRuns.

(* ===================================================================== *)
(** * Further properties of the parser                                   *)
(* ===================================================================== *)

Section MoreParameters.
Import Parser.

(** X1. [parseParameters] does not depend on the order in which [range]
    yields the supplied parameters: run over the entries of a map in any
    order, each key once, the loop has the outcome it has on the map,
    panics included. *)
Theorem parseParameters_order_independent (paramsDef : gmap string DocParameter)
    (entries : list (string * list (option string))) :
  NoDup entries.*1 ->
  parseParameters_in_order paramsDef entries
  = parseParameters (list_to_map entries) paramsDef.
Proof.
  intros Hnodup. apply parseParameters_any_order.
  symmetry. by apply map_to_list_to_map.
Qed.

(** X2. What [parseParameters] stores when it returns: for a parameter
    declared [String] the first supplied value alone, further values being
    dropped; for a parameter declared [StringList] the whole supplied
    list, an empty one included; nothing for a declared parameter of any
    other type, and nothing for a name that is not supplied. *)
Theorem parseParameters_entries (params : gmap string (list (option string)))
    (paramsDef : gmap string DocParameter) (result : gmap string Any) :
  parseParameters params paramsDef = Go.Returned result ->
  (forall name param definition,
     params !! name = Some param -> paramsDef !! name = Some definition ->
     param_ParamType definition = ParamTypeString ->
     exists first rest, param = first :: rest /\ result !! name = Some (AnyStringPtr first))
  /\ (forall name param definition,
        params !! name = Some param -> paramsDef !! name = Some definition ->
        param_ParamType definition = ParamTypeStringList ->
        result !! name = Some (AnyStringPtrs param))
  /\ (forall name definition,
        paramsDef !! name = Some definition ->
        param_ParamType definition <> ParamTypeString ->
        param_ParamType definition <> ParamTypeStringList ->
        result !! name = None)
  /\ (forall name, params !! name = None -> result !! name = None).
Proof.
  intros Hret.
  destruct (parseParameters_outcome params paramsDef) as [[_ Hpanic]|[Hgood Hres]];
    [congruence|].
  rewrite Hret in Hres. injection Hres as ->.
  split; [|split; [|split]].
  - intros name param definition Hsupplied Hdeclared Hstring.
    destruct param as [|first rest].
    + destruct Hgood. exists name, []. split; [done|]. split; [done|]. eauto.
    + exists first, rest. split; [done|].
      rewrite map_lookup_imap, Hsupplied. cbn. unfold parsedEntry. rewrite Hdeclared.
      by destruct (decide (param_ParamType definition = ParamTypeString)).
  - intros name param definition Hsupplied Hdeclared Hlist.
    rewrite map_lookup_imap, Hsupplied. cbn. unfold parsedEntry. rewrite Hdeclared.
    destruct (decide (param_ParamType definition = ParamTypeString)) as [Hstring|_].
    { rewrite Hlist in Hstring. discriminate. }
    by destruct (decide (param_ParamType definition = ParamTypeStringList)).
  - intros name definition Hdeclared Hnot1 Hnot2.
    rewrite map_lookup_imap. destruct (params !! name); [|done]. cbn.
    unfold parsedEntry. rewrite Hdeclared.
    destruct (decide (param_ParamType definition = ParamTypeString)); [done|].
    by destruct (decide (param_ParamType definition = ParamTypeStringList)).
  - intros name Hnone. by rewrite map_lookup_imap, Hnone.
Qed.

(** X3. The defaults loop of [ParseDocumentWithParams] (lines 75-80)
    never overwrites an entry: a parameter that has a value keeps it, a
    declared parameter without one gets its declared default, no other key
    appears, and running the loop again changes nothing. *)
Theorem addDefaultValues_fills_gaps_only (declared : gmap string DocParameter)
    (validParams : gmap string Any) :
  dom (addDefaultValues declared validParams) = dom validParams ∪ dom declared
  /\ (forall k v, validParams !! k = Some v ->
        addDefaultValues declared validParams !! k = Some v)
  /\ (forall k d, validParams !! k = None -> declared !! k = Some d ->
        addDefaultValues declared validParams !! k = Some (param_DefaultVal d))
  /\ addDefaultValues declared (addDefaultValues declared validParams)
     = addDefaultValues declared validParams.
Proof.
  split; [|split; [|split]].
  - apply set_eq. intros k. rewrite elem_of_union, !elem_of_dom, addDefaultValues_lookup.
    destruct (validParams !! k) as [v|].
    + split; [by left|by eauto].
    + rewrite fmap_is_Some. split; [by right|]. by intros [[? ?]|?].
  - intros k v Hk. by rewrite addDefaultValues_lookup, Hk.
  - intros k d Hk Hd. by rewrite addDefaultValues_lookup, Hk, Hd.
  - apply map_eq. intros k. rewrite !addDefaultValues_lookup.
    destruct (validParams !! k) as [v|]; [done|].
    by destruct (declared !! k).
Qed.

(** X4. A declared parameter whose type is neither [String] nor
    [StringList] ends up with its declared default, whether or not a value
    was supplied for it: the supplied value is ignored.
    [parameters.ValidParameters] is taken to return entries of its
    argument only. *)
Theorem unknown_type_gets_default (env : Env)
    (supplied : gmap string (list (option string)))
    (declared : gmap string DocParameter) (table : gmap string Any)
    (name : string) (definition : DocParameter) :
  (forall m, dom (ValidParameters env m) ⊆ dom m) ->
  resolveParameters env supplied declared = Go.Returned table ->
  declared !! name = Some definition ->
  param_ParamType definition <> ParamTypeString ->
  param_ParamType definition <> ParamTypeStringList ->
  table !! name = Some (param_DefaultVal definition).
Proof.
  intros Hvalid Hres Hdeclared Hnot1 Hnot2.
  unfold resolveParameters in Hres. unfold_outcome.
  destruct (parseParameters supplied declared) as [params| |] eqn:Hparse; [|done..].
  injection Hres as <-.
  destruct (parseParameters_entries supplied declared params Hparse) as (_ & _ & Hskip & _).
  rewrite addDefaultValues_lookup, Hdeclared.
  destruct (ValidParameters env params !! name) as [v|] eqn:Hv; [|done].
  assert (name ∈ dom params) as Hin.
  { apply Hvalid, elem_of_dom. by rewrite Hv. }
  apply elem_of_dom in Hin as [? Hin].
  rewrite (Hskip name definition Hdeclared Hnot1 Hnot2) in Hin. done.
Qed.

(** X5. The panic of [parseParameters] is not turned into an error: when
    the association marshals and the document decodes, and a parameter
    the document declares with type [String] is supplied without a value,
    [ParseDocumentWithParams] and so the whole compile panic with an index
    out of range; no document state is produced. *)
Theorem compile_panics_on_String_without_value (env : Env) (rawData : InstanceAssociation)
    (content : DocumentContent) (name : string) (definition : DocParameter) :
  Go.returns (Marshal_association env rawData) = true ->
  Unmarshal_document env (raw_Document rawData) = Go.Returned content ->
  assoc_Parameters (raw_Association rawData) !! name = Some [] ->
  doc_Parameters content !! name = Some definition ->
  param_ParamType definition = ParamTypeString ->
  ParseDocumentWithParams env rawData = Go.Panicked "index out of range"
  /\ compile env rawData = Go.Panicked "index out of range".
Proof.
  intros Hmarshal Hdoc Hsupplied Hdeclared Hstring.
  assert (ParseDocumentWithParams env rawData = Go.Panicked "index out of range") as Hparse.
  { unfold ParseDocumentWithParams. unfold_outcome.
    destruct (Marshal_association env rawData); [|done..].
    rewrite Hdoc.
    destruct (parseParameters_outcome (assoc_Parameters (raw_Association rawData))
                (doc_Parameters content)) as [[_ ->]|[Hgood _]]; [done|].
    destruct Hgood. exists name, []. split; [done|]. split; [done|]. eauto. }
  split; [done|]. unfold compile. rewrite Hparse. done.
Qed.

End MoreParameters.

Section MoreDocumentState.
Import Parser.

(** X6. The payload that [ParseDocumentWithParams] hands to the parameter
    substitution carries the association id as command id and the
    association name as document name; its output key prefix and bucket
    are empty unless the association has an output location with an S3
    location, and then each of the two is copied if it is set and left
    empty if it is not, independently of the other. *)
Theorem payload_takes_output_location (env : Env) (rawData : InstanceAssociation)
    (payload' : SendCommandPayload) :
  ParseDocumentWithParams env rawData = Go.Returned payload' ->
  exists payload table,
    ReplacePluginParameters env payload table = Go.Returned payload'
    /\ payload_CommandID payload = assoc_AssociationId (raw_Association rawData)
    /\ payload_DocumentName payload = assoc_Name (raw_Association rawData)
    /\ (assoc_OutputLocation (raw_Association rawData) = None ->
        payload_OutputS3KeyPrefix payload = "" /\ payload_OutputS3BucketName payload = "")
    /\ (forall outputLocation,
          assoc_OutputLocation (raw_Association rawData) = Some outputLocation ->
          out_S3Location outputLocation = None ->
          payload_OutputS3KeyPrefix payload = "" /\ payload_OutputS3BucketName payload = "")
    /\ (forall outputLocation s3,
          assoc_OutputLocation (raw_Association rawData) = Some outputLocation ->
          out_S3Location outputLocation = Some s3 ->
          payload_OutputS3KeyPrefix payload = default "" (s3_OutputS3KeyPrefix s3)
          /\ payload_OutputS3BucketName payload = default "" (s3_OutputS3BucketName s3)).
Proof.
  unfold ParseDocumentWithParams. unfold_outcome.
  destruct (Marshal_association env rawData); [|done..].
  destruct (Unmarshal_document env (raw_Document rawData)) as [content| |]; [|done..].
  destruct (parseParameters (assoc_Parameters (raw_Association rawData))
              (doc_Parameters content)) as [params| |]; [|done..].
  destruct (Marshal_parameters env params); [|done..].
  intros Hsubst. eexists _, _. split; [exact Hsubst|]. cbn.
  unfold outputS3KeyPrefix_of, outputS3BucketName_of.
  split; [done|]. split; [done|]. split; [|split].
  - by intros ->.
  - intros [s3] -> Hs3. cbn in Hs3. by rewrite Hs3.
  - intros [s3'] s3 -> Hs3. cbn in Hs3. by rewrite Hs3.
Qed.


(** X8. Every plugin unit of a compiled state, in either collection, is
    marked not executed, writes to the payload's output bucket, and
    carries the document's message id [aws.ssm.<association id>.<instance
    id>], in which neither the clock nor the document body takes part. *)
Theorem units_share_message_id_and_bucket (env : Env) (payload : SendCommandPayload)
    (rawData : InstanceAssociation) :
  let docState := (InitializeDocumentState env payload rawData).1 in
  let common (unit : PluginState) :=
    ps_HasExecuted unit = false
    /\ cfg_OutputS3BucketName (ps_Configuration unit) = payload_OutputS3BucketName payload
    /\ cfg_MessageId (ps_Configuration unit)
       = "aws.ssm." +:+ assoc_AssociationId (raw_Association rawData)
         +:+ "." +:+ assoc_InstanceId (raw_Association rawData) in
  info_MessageID (state_DocumentInformation docState)
  = "aws.ssm." +:+ assoc_AssociationId (raw_Association rawData)
    +:+ "." +:+ assoc_InstanceId (raw_Association rawData)
  /\ Forall common (state_InstancePluginsInformation docState)
  /\ map_Forall (fun _ unit => common unit) (state_PluginsInformation docState).
Proof.
  intros docState common. subst docState.
  split; [|split].
  - by rewrite (proj1 (InitializeDocumentState_newDocumentInfo env payload rawData)).
  - destruct (InitializeDocumentState_cases env payload rawData)
      as [(_ & -> & _)|[(_ & _ & _ & ->)|(_ & _ & _ & ->)]]; [done| |done].
    apply Forall_forall. intros unit Hin.
    apply list_elem_of_In, in_map_iff in Hin as (step & <- & _). done.
  - destruct (InitializeDocumentState_cases env payload rawData)
      as [(_ & _ & Hmap)|[(_ & _ & -> & _)|(_ & _ & -> & _)]];
      [|apply map_Forall_empty..].
    intros name unit Hunit. rewrite Hmap in Hunit.
    destruct (doc_RuntimeConfig (payload_DocumentContent payload) !! name); [|done].
    by injection Hunit as <-.
Qed.

(** X9. In the step form the output key prefix and the orchestration
    directory of a unit are built from the step's action, not from its
    name: two steps of one document with the same action get the same
    output key prefix and the same orchestration directory, whatever
    their names. *)
Theorem steps_with_one_action_share_paths (env : Env) (payload : SendCommandPayload)
    (rawData : InstanceAssociation) (i j : nat) (step_i step_j : InstancePluginConfig) :
  doc_RuntimeConfig (payload_DocumentContent payload) = ∅ ->
  doc_MainSteps (payload_DocumentContent payload) !! i = Some step_i ->
  doc_MainSteps (payload_DocumentContent payload) !! j = Some step_j ->
  step_Action step_i = step_Action step_j ->
  exists unit_i unit_j,
    state_InstancePluginsInformation (InitializeDocumentState env payload rawData).1 !! i
    = Some unit_i
    /\ state_InstancePluginsInformation (InitializeDocumentState env payload rawData).1 !! j
       = Some unit_j
    /\ ps_Id unit_i = step_Name step_i /\ ps_Id unit_j = step_Name step_j
    /\ cfg_OutputS3KeyPrefix (ps_Configuration unit_i)
       = cfg_OutputS3KeyPrefix (ps_Configuration unit_j)
    /\ cfg_OrchestrationDirectory (ps_Configuration unit_i)
       = cfg_OrchestrationDirectory (ps_Configuration unit_j).
Proof.
  intros Hrc Hi Hj Haction.
  destruct (InitializeDocumentState_cases env payload rawData)
    as [(Hrc' & _)|[(_ & _ & _ & Hseq)|(_ & Hms & _)]].
  - done.
  - rewrite Hseq. change (@map) with (@fmap list _).
    rewrite !list_lookup_fmap, Hi, Hj. cbn. eexists _, _.
    split; [done|]. split; [done|]. cbn. rewrite Haction. done.
  - rewrite Hms in Hi. done.
Qed.

End MoreDocumentState.

(* ===================================================================== *)
(** * Further properties of the inventory orchestrator                   *)
(* ===================================================================== *)

Section MoreGathering.
Import Inventory.
Variables (k : Constants) (p : Plugin) (policy : Policy).

(** The loop without an error: every name gave its item, and every item,
    when it was appended, passed the size test with the items before it. *)
Lemma gatherLoop_ok_items names items0 calls0 :
  err (gatherLoop k p policy names items0 calls0) = None ->
  exists new,
    items (gatherLoop k p policy names items0 calls0) = items0 ++ new
    /\ Forall2 (fun name item =>
                  exists gatherer,
                    registeredGatherers p !! name = Some gatherer
                    /\ Run gatherer (InventoryPolicy policy !!! name) = (item, None))
               names new
    /\ forall n item, new !! n = Some item ->
         VerifyInventoryDataSize k item (items0 ++ take (S n) new) = true.
Proof.
  revert items0 calls0. induction names as [|name rest IH]; intros items0 calls0.
  - intros _. exists []. cbn. rewrite app_nil_r. split; [done|]. split; [constructor|done].
  - cbn [gatherLoop].
    destruct (registeredGatherers p !! name) as [gatherer|] eqn:Hreg; [|done].
    destruct (Run gatherer (InventoryPolicy policy !!! name)) as [item [cause|]] eqn:Hrun;
      [done|].
    destruct (VerifyInventoryDataSize k item (items0 ++ [item])) eqn:Hsize; cbn [negb];
      [|done].
    intros Hok. destruct (IH _ _ Hok) as (new & Hitems & Hran & Hsizes).
    exists (item :: new). split; [|split].
    + rewrite Hitems. by rewrite <- app_assoc.
    + constructor; [|done]. by exists gatherer.
    + intros [|n] item' Hn; cbn in Hn.
      * injection Hn as <-. cbn. by rewrite take_0.
      * specialize (Hsizes n item' Hn). rewrite <- app_assoc in Hsizes. exact Hsizes.
Qed.

(** X10. When [VerifyAndRunGatherers] returns no error, the batch is
    complete: it has one item per entry of the policy, item [i] being
    what the registered gatherer of the [i]-th name yielded by [range]
    returned, without an error, for that name's sub-policy; and each item
    passed the size test together with the items before it. *)
Theorem successful_run_returns_full_batch (order : list string) :
  range_order (InventoryPolicy policy) order ->
  err (VerifyAndRunGatherers k p policy order) = None ->
  length (items (VerifyAndRunGatherers k p policy order)) = size (InventoryPolicy policy)
  /\ Forall2 (fun name item =>
                exists gatherer,
                  registeredGatherers p !! name = Some gatherer
                  /\ Run gatherer (InventoryPolicy policy !!! name) = (item, None))
             order (items (VerifyAndRunGatherers k p policy order))
  /\ forall n item,
       items (VerifyAndRunGatherers k p policy order) !! n = Some item ->
       VerifyInventoryDataSize k item
         (take (S n) (items (VerifyAndRunGatherers k p policy order))) = true.
Proof.
  intros [Hnodup Hkeys] Hok. unfold VerifyAndRunGatherers in *.
  destruct (gatherLoop_ok_items order [] [] Hok) as (new & Hitems & Hran & Hsizes).
  cbn in Hitems. rewrite Hitems. split; [|split; [exact Hran|exact Hsizes]].
  rewrite <- (Forall2_length _ _ _ Hran), <- size_dom, <- Hkeys.
  symmetry. by apply size_list_to_set.
Qed.

(** X11. If the policy names a gatherer that is not registered, or one
    whose [Run] returns an error for its sub-policy, then
    [VerifyAndRunGatherers] returns an error in whatever order [range]
    yields the names. *)
Theorem unusable_gatherer_fails_every_order (order : list string) (name : string) :
  range_order (InventoryPolicy policy) order ->
  is_Some (InventoryPolicy policy !! name) ->
  (registeredGatherers p !! name = None
   \/ exists gatherer cause,
        registeredGatherers p !! name = Some gatherer
        /\ (Run gatherer (InventoryPolicy policy !!! name)).2 = Some cause) ->
  exists e, err (VerifyAndRunGatherers k p policy order) = Some e.
Proof.
  intros [_ Hkeys] Hnamed Hunusable.
  destruct (err (VerifyAndRunGatherers k p policy order)) as [e|] eqn:Herr; [by exists e|].
  unfold VerifyAndRunGatherers in Herr.
  destruct (gatherLoop_ok_items order [] [] Herr) as (new & _ & Hran & _).
  assert (name ∈ order) as Hin.
  { apply (elem_of_list_to_set (C := gset string)). rewrite Hkeys. by apply elem_of_dom. }
  apply list_elem_of_lookup in Hin as [i Hi].
  destruct (Forall2_lookup_l _ _ _ _ _ Hran Hi) as (item & _ & gatherer & Hreg & Hrun).
  destruct Hunusable as [Hnone|(gatherer' & cause & Hreg' & Hfail)].
  - congruence.
  - rewrite Hreg in Hreg'. injection Hreg' as <-. rewrite Hrun in Hfail. done.
Qed.

End MoreGathering.

Section MoreApplying.
Import Inventory.

(** X12. An empty policy is not an error: [VerifyAndRunGatherers] runs no
    gatherer and returns no item and no error, and [ApplyInventoryPolicy]
    still converts and sends, its only calls being the conversion of the
    empty batch and the upload of what that conversion returned. *)
Theorem empty_policy_is_uploaded (k : Constants) (w : World) (p : Plugin)
    (content : string) (policy : Policy) :
  Exists w (Go.Join [location p; InventoryPolicyDocName k]) = true ->
  ReadAllText w (Go.Join [location p; InventoryPolicyDocName k]) = Go.Returned content ->
  Unmarshal_policy w content = Go.Returned policy ->
  InventoryPolicy policy = ∅ ->
  range_order (InventoryPolicy policy) (range_keys w (InventoryPolicy policy)) ->
  VerifyAndRunGatherers k p policy (range_keys w (InventoryPolicy policy))
  = {| items := []; err := None; calls := [] |}
  /\ ApplyInventoryPolicy k w p
     = [CallConvert []; CallSend (ConvertToSsmInventoryItems (uploader p) []).1].
Proof.
  intros Hexists Hread Hdecode Hempty [_ Hkeys].
  assert (range_keys w (InventoryPolicy policy) = []) as Horder.
  { destruct (range_keys w (InventoryPolicy policy)) as [|name rest]; [done|].
    rewrite Hempty, dom_empty_L in Hkeys.
    assert (name ∈ (∅ : gset string)) as Hin; [|by apply not_elem_of_empty in Hin].
    rewrite <- Hkeys. apply elem_of_list_to_set. by left. }
  split.
  - by rewrite Horder.
  - unfold ApplyInventoryPolicy. rewrite Hexists, Hread, Hdecode, Horder. cbn.
    by destruct (ConvertToSsmInventoryItems (uploader p) []).
Qed.

(** X13. The calls of one [ApplyInventoryPolicy] run are gatherer runs
    followed either by nothing or by one conversion and one upload, the
    upload receiving the slice that the conversion returned; there is
    never more than one upload. When the policy file is absent, cannot be
    read or does not decode, the run makes no call at all: no gatherer is
    run. *)
Theorem apply_makes_runs_then_one_upload (k : Constants) (w : World) (p : Plugin) :
  (exists runs tail,
     ApplyInventoryPolicy k w p = runs ++ tail
     /\ Forall (fun c => exists name config, c = CallRun name config) runs
     /\ (tail = []
         \/ exists items inventoryItems convertErr,
              tail = [CallConvert items; CallSend inventoryItems]
              /\ ConvertToSsmInventoryItems (uploader p) items = (inventoryItems, convertErr)))
  /\ length (sent (ApplyInventoryPolicy k w p)) <= 1
  /\ (Exists w (Go.Join [location p; InventoryPolicyDocName k]) = false
      \/ Go.returns (ReadAllText w (Go.Join [location p; InventoryPolicyDocName k])) = false
      \/ (exists content,
            ReadAllText w (Go.Join [location p; InventoryPolicyDocName k]) = Go.Returned content
            /\ Go.returns (Unmarshal_policy w content) = false) ->
      ApplyInventoryPolicy k w p = []).
Proof.
  assert (Hnone : (exists runs tail,
     @nil call = runs ++ tail
     /\ Forall (fun c => exists name config, c = CallRun name config) runs
     /\ (tail = []
         \/ exists items inventoryItems convertErr,
              tail = [CallConvert items; CallSend inventoryItems]
              /\ ConvertToSsmInventoryItems (uploader p) items = (inventoryItems, convertErr)))
     /\ length (sent (@nil call)) <= 1).
  { split; [|cbn; lia]. exists [], []. split; [done|]. split; [constructor|by left]. }
  unfold ApplyInventoryPolicy. cbv zeta.
  destruct (Exists w (Go.Join [location p; InventoryPolicyDocName k])) eqn:Hexists; cycle 1.
  { destruct Hnone as [H1 H2]. split; [done|]. split; [done|]. done. }
  destruct (ReadAllText w (Go.Join [location p; InventoryPolicyDocName k]))
    as [content| |] eqn:Hread; cycle 1.
  { destruct Hnone as [H1 H2]. split; [done|]. split; [done|]. done. }
  { destruct Hnone as [H1 H2]. split; [done|]. split; [done|]. done. }
  destruct (Unmarshal_policy w content) as [policy| |] eqn:Hdecode; cycle 1.
  { destruct Hnone as [H1 H2]. split; [done|]. split; [done|]. done. }
  { destruct Hnone as [H1 H2]. split; [done|]. split; [done|]. done. }
  destruct (VerifyAndRunGatherers_calls k p policy (range_keys w (InventoryPolicy policy)))
    as (Hcalls & _ & _ & Hsent).
  assert (Forall (fun c => exists name config, c = CallRun name config)
            (calls (VerifyAndRunGatherers k p policy (range_keys w (InventoryPolicy policy)))))
    as Hruns.
  { rewrite Hcalls. apply Forall_forall. intros c Hin.
    apply list_elem_of_In, in_map_iff in Hin as (name & <- & _). eauto. }
  assert (Hfalse : ~ (true = false \/ Go.returns (Go.Returned content) = false
              \/ (exists content0 : string, Go.Returned content = Go.Returned content0
                    /\ Go.returns (Unmarshal_policy w content0) = false))).
  { simpl. intros [?|[?|(content0 & Hc0 & Hc)]]; [done|done|].
    injection Hc0 as <-. rewrite Hdecode in Hc. done. }
  destruct (err (VerifyAndRunGatherers k p policy (range_keys w (InventoryPolicy policy))))
    as [e|] eqn:Herr.
  - split; [|split].
    + exists (calls (VerifyAndRunGatherers k p policy
                       (range_keys w (InventoryPolicy policy)))), [].
      rewrite app_nil_r. split; [done|]. split; [exact Hruns|]. by left.
    + rewrite Hsent. cbn. lia.
    + intros H. by destruct Hfalse.
  - destruct (ConvertToSsmInventoryItems (uploader p)
                (items (VerifyAndRunGatherers k p policy
                          (range_keys w (InventoryPolicy policy)))))
      as [inventoryItems convertErr] eqn:Hconvert.
    split; [|split].
    + exists (calls (VerifyAndRunGatherers k p policy
                       (range_keys w (InventoryPolicy policy)))).
      eexists. split; [done|]. split; [exact Hruns|]. right. eauto.
    + rewrite sent_app, Hsent. cbn. lia.
    + intros H. by destruct Hfalse.
Qed.

End MoreApplying.

Section SizeTest.
Import Inventory.

Lemma string_concat_length (sep : string) (l : list string) :
  String.length (String.concat sep l)
  = (sum_list_with String.length l + String.length sep * (length l - 1))%nat.
Proof.
  induction l as [|x l IH]; [simpl; lia|].
  destruct l as [|y l].
  - simpl. lia.
  - change (String.concat sep (x :: y :: l))
      with (x +:+ sep +:+ String.concat sep (y :: l)).
    rewrite !string_length_app, IH. simpl. lia.
Qed.

Lemma sum_list_with_map {A B : Type} (f : B -> nat) (g : A -> B) (l : list A) :
  sum_list_with f (map g l) = sum_list_with (fun a => f (g a)) l.
Proof. induction l as [|a l IH]; simpl; [done|]. by rewrite IH. Qed.

(** The bytes of a rendered batch: two brackets, the rendered items, and
    one space between neighbours. *)
Lemma Sprintf_slice_length {A : Type} (render : A -> string) (xs : list A) :
  String.length (Go.Sprintf_slice render xs)
  = (2 + sum_list_with (fun x => String.length (render x)) xs + (length xs - 1))%nat.
Proof.
  unfold Go.Sprintf_slice.
  rewrite !string_length_app, string_concat_length, sum_list_with_map, length_map.
  simpl. lia.
Qed.

(** X14. The verdict of [VerifyInventoryDataSize] on an item and a batch
    does not depend on the order of the batch: it reads the batch only
    through the number of bytes of its rendering, which is the same for
    every arrangement of the same items. *)
Theorem VerifyInventoryDataSize_ignores_batch_order (k : Constants) (item : Item)
    (items1 items2 : list Item) :
  items1 ≡ₚ items2 ->
  String.length (Go.Sprintf_slice Sprintf_Item items1)
  = String.length (Go.Sprintf_slice Sprintf_Item items2)
  /\ VerifyInventoryDataSize k item items1 = VerifyInventoryDataSize k item items2.
Proof.
  intros Hperm.
  assert (String.length (Go.Sprintf_slice Sprintf_Item items1)
          = String.length (Go.Sprintf_slice Sprintf_Item items2)) as Hlen.
  { rewrite !Sprintf_slice_length. by rewrite Hperm. }
  split; [exact Hlen|]. unfold VerifyInventoryDataSize. by rewrite Hlen.
Qed.

End SizeTest.

(** ** The further properties on concrete inputs *)

Section MoreRuns.
Import Parser Inventory.

Lemma parseParameters_order_independent_witness :
  parseParameters_in_order Scenario.declared Cases.entriesForward
  = parseParameters_in_order Scenario.declared Cases.entriesBackward
  /\ parseParameters_in_order Scenario.declared Cases.entriesBackward
     = parseParameters Scenario.supplied Scenario.declared.
Proof.
  assert (NoDup Cases.entriesForward.*1) as Hforward.
  { apply (bool_decide_unpack _). exact I. }
  assert (NoDup Cases.entriesBackward.*1) as Hbackward.
  { apply (bool_decide_unpack _). exact I. }
  rewrite (parseParameters_order_independent Scenario.declared Cases.entriesForward Hforward).
  rewrite (parseParameters_order_independent Scenario.declared Cases.entriesBackward Hbackward).
  split; reflexivity.
Defined.

Lemma parseParameters_suppliedTwice :
  parseParameters Cases.suppliedTwice Scenario.declared = Go.Returned Cases.parsedTwice.
Proof. reflexivity. Qed.

Lemma parseParameters_entries_witness :
  (exists first rest,
     [Some "/home"; Some "/root"] = first :: rest
     /\ Cases.parsedTwice !! "workingDirectory" = Some (AnyStringPtr first))
  /\ Cases.parsedTwice !! "commands" = Some (AnyStringPtrs []).
Proof.
  pose proof (parseParameters_entries Cases.suppliedTwice Scenario.declared
                Cases.parsedTwice parseParameters_suppliedTwice) as (Hstring & Hlist & _).
  split.
  - apply (Hstring "workingDirectory" [Some "/home"; Some "/root"]
             {| param_ParamType := "String"; param_DefaultVal := AnyJSON "/tmp" |});
      reflexivity.
  - apply (Hlist "commands" []
             {| param_ParamType := "StringList"; param_DefaultVal := AnyJSON "[]" |});
      reflexivity.
Defined.

Lemma unknown_type_gets_default_witness :
  exists table,
    resolveParameters (Scenario.env Scenario.runID Scenario.oneStepDocument)
      Cases.suppliedInteger Cases.declaredInteger = Go.Returned table
    /\ table !! "count" = Some (AnyJSON "3").
Proof.
  eexists. split; [reflexivity|].
  apply (unknown_type_gets_default (Scenario.env Scenario.runID Scenario.oneStepDocument)
           Cases.suppliedInteger Cases.declaredInteger _ "count"
           {| param_ParamType := "Integer"; param_DefaultVal := AnyJSON "3" |});
    first [reflexivity | discriminate | intros m; reflexivity].
Defined.

Lemma compile_panics_on_String_without_value_witness :
  ParseDocumentWithParams (Scenario.env Scenario.runID Cases.documentWithParameters)
    Cases.rawDataWithoutValue = Go.Panicked "index out of range"
  /\ compile (Scenario.env Scenario.runID Cases.documentWithParameters)
       Cases.rawDataWithoutValue = Go.Panicked "index out of range".
Proof.
  apply (compile_panics_on_String_without_value
           (Scenario.env Scenario.runID Cases.documentWithParameters)
           Cases.rawDataWithoutValue Cases.documentWithParameters "workingDirectory"
           {| param_ParamType := "String"; param_DefaultVal := AnyJSON "/tmp" |});
    reflexivity.
Defined.

Lemma payload_takes_output_location_witness :
  exists payload table,
    ReplacePluginParameters (Scenario.env Scenario.runID Scenario.oneStepDocument) payload table
    = Go.Returned
        {| payload_Parameters := ∅;
           payload_DocumentContent := Scenario.oneStepDocument;
           payload_CommandID := "assoc-1";
           payload_DocumentName := "AWS-RunShellScript";
           payload_OutputS3KeyPrefix := "";
           payload_OutputS3BucketName := "b" |}
    /\ payload_OutputS3KeyPrefix payload = ""
    /\ payload_OutputS3BucketName payload = "b".
Proof.
  destruct (payload_takes_output_location
              (Scenario.env Scenario.runID Scenario.oneStepDocument) Cases.rawDataBucketOnly
              {| payload_Parameters := ∅;
                 payload_DocumentContent := Scenario.oneStepDocument;
                 payload_CommandID := "assoc-1";
                 payload_DocumentName := "AWS-RunShellScript";
                 payload_OutputS3KeyPrefix := "";
                 payload_OutputS3BucketName := "b" |})
    as (payload & table & Hsubst & _ & _ & _ & _ & Hs3); [reflexivity|].
  exists payload, table. split; [exact Hsubst|].
  exact (Hs3 _ _ eq_refl eq_refl).
Defined.

Lemma steps_with_one_action_share_paths_witness :
  exists unit1 unit2,
    state_InstancePluginsInformation
      (InitializeDocumentState (Scenario.env Scenario.runID Cases.twoStepsDocument)
         (Scenario.payload Cases.twoStepsDocument) Scenario.rawData).1 = [unit1; unit2]
    /\ ps_Id unit1 = "step1" /\ ps_Id unit2 = "step2"
    /\ cfg_OutputS3KeyPrefix (ps_Configuration unit1)
       = cfg_OutputS3KeyPrefix (ps_Configuration unit2)
    /\ cfg_OrchestrationDirectory (ps_Configuration unit1)
       = cfg_OrchestrationDirectory (ps_Configuration unit2).
Proof.
  destruct (steps_with_one_action_share_paths
              (Scenario.env Scenario.runID Cases.twoStepsDocument)
              (Scenario.payload Cases.twoStepsDocument) Scenario.rawData
              0 1 Scenario.step1 Cases.step2)
    as (unit1 & unit2 & H1 & H2 & Hid1 & Hid2 & Hprefix & Hdir); [reflexivity..|].
  injection H1 as <-. injection H2 as <-.
  eexists _, _. split; [reflexivity|]. split; [exact Hid1|]. split; [exact Hid2|].
  split; [exact Hprefix|exact Hdir].
Defined.

Lemma successful_run_returns_full_batch_witness :
  length (items (VerifyAndRunGatherers Scenario.limits (Scenario.plugin Scenario.uploaderOk)
                   Scenario.policy ["B"; "A"])) = 2%nat
  /\ items (VerifyAndRunGatherers Scenario.limits (Scenario.plugin Scenario.uploaderOk)
              Scenario.policy ["B"; "A"]) = [Scenario.itemB; Scenario.itemA].
Proof.
  destruct (successful_run_returns_full_batch Scenario.limits
              (Scenario.plugin Scenario.uploaderOk) Scenario.policy ["B"; "A"])
    as (Hlength & _ & _); [exact range_order_BA|reflexivity|].
  split; [exact Hlength|reflexivity].
Defined.

Lemma unusable_gatherer_fails_every_order_witness :
  (exists e, err (VerifyAndRunGatherers Scenario.limits Cases.pluginWithoutB
                    Scenario.policy ["A"; "B"]) = Some e)
  /\ (exists e, err (VerifyAndRunGatherers Scenario.limits Cases.pluginFailingB
                       Scenario.policy ["B"; "A"]) = Some e).
Proof.
  split.
  - apply (unusable_gatherer_fails_every_order Scenario.limits Cases.pluginWithoutB
             Scenario.policy ["A"; "B"] "B" range_order_AB).
    + eexists. reflexivity.
    + left. reflexivity.
  - apply (unusable_gatherer_fails_every_order Scenario.limits Cases.pluginFailingB
             Scenario.policy ["B"; "A"] "B" range_order_BA).
    + eexists. reflexivity.
    + right. exists Cases.gathererFailing, "access denied". split; reflexivity.
Defined.

Lemma empty_policy_is_uploaded_witness :
  ApplyInventoryPolicy Scenario.limits Cases.worldEmptyPolicy
    (Scenario.plugin Scenario.uploaderOk)
  = [CallConvert []; CallSend []].
Proof.
  apply (empty_policy_is_uploaded Scenario.limits Cases.worldEmptyPolicy
           (Scenario.plugin Scenario.uploaderOk) "{}" Cases.emptyPolicy);
    try reflexivity.
  split; [constructor|reflexivity].
Defined.

Lemma apply_makes_runs_then_one_upload_witness :
  ApplyInventoryPolicy Scenario.limits Cases.worldAbsent (Scenario.plugin Scenario.uploaderOk)
  = []
  /\ length (sent (ApplyInventoryPolicy Scenario.limits Scenario.world
                     (Scenario.plugin Scenario.uploaderOk))) <= 1.
Proof.
  destruct (apply_makes_runs_then_one_upload Scenario.limits Cases.worldAbsent
              (Scenario.plugin Scenario.uploaderOk)) as (_ & _ & Hnone).
  destruct (apply_makes_runs_then_one_upload Scenario.limits Scenario.world
              (Scenario.plugin Scenario.uploaderOk)) as (_ & Hone & _).
  split; [|exact Hone]. apply Hnone. left. reflexivity.
Defined.

Lemma VerifyInventoryDataSize_ignores_batch_order_witness :
  String.length (Go.Sprintf_slice Sprintf_Item [Scenario.itemA; Scenario.itemB])
  = String.length (Go.Sprintf_slice Sprintf_Item [Scenario.itemB; Scenario.itemA])
  /\ VerifyInventoryDataSize Scenario.tightLimits Scenario.itemB [Scenario.itemA; Scenario.itemB]
     = VerifyInventoryDataSize Scenario.tightLimits Scenario.itemB
         [Scenario.itemB; Scenario.itemA].
Proof.
  apply (VerifyInventoryDataSize_ignores_batch_order Scenario.tightLimits Scenario.itemB
           [Scenario.itemA; Scenario.itemB] [Scenario.itemB; Scenario.itemA]).
  apply perm_swap.
Defined.

End MoreRuns.
